(** * URL Access API (servers/url-access/main.py): a shallow embedding

    The service has two handlers, [fetch_url_content] (GET /fetch) and
    [analyze_url] (GET /analyze), and one helper, [extract_text_from_html].
    Python text is a list of Unicode code points, a body is a list of bytes,
    a [dict] is a [gmap], and [try]/[except] is an error monad over a small
    model of the exception class hierarchy.  The libraries the handlers call
    (requests, BeautifulSoup's parser, json) are the members of the class
    [PyLib]; the handlers are written against it. *)

From Stdlib Require Import ZArith List Bool Lia Strings.Ascii Strings.String Strings.Byte.
From Stdlib Require Import Numbers.DecimalString.
From stdpp Require Import base option list gmap.

Local Open Scope Z_scope.
Local Open Scope list_scope.

(** ** Python [str] and [bytes] *)

Module Py.

(** A [str] is a sequence of code points, a [bytes] a sequence of bytes. *)
Definition char : Type := Z.
Definition str : Type := list Z.
Definition bytes : Type := list byte.

(** A literal of the source, as code points. *)
Definition lit (s : string) : str :=
  List.map (fun a => Z.of_N (N_of_ascii a)) (list_ascii_of_string s).

Definition str_eqb (a b : str) : bool := bool_decide (a = b).

(** Truthiness of a [str]: the empty string is false. *)
Definition truthy (s : str) : bool :=
  match s with [] => false | _ :: _ => true end.

(** [str.isspace] on one character, the set [str.strip] and [str.split]
    use (CPython's [_PyUnicode_IsWhitespace]). *)
Definition isspace (c : char) : bool :=
  ((9 <=? c) && (c <=? 13)) || ((28 <=? c) && (c <=? 32))
  || (c =? 133) || (c =? 160) || (c =? 5760)
  || ((8192 <=? c) && (c <=? 8202))
  || (c =? 8232) || (c =? 8233) || (c =? 8239) || (c =? 8287)
  || (c =? 12288).

(** The line boundaries of [str.splitlines]
    (CPython's [_PyUnicode_IsLinebreak]). *)
Definition is_linebreak (c : char) : bool :=
  ((10 <=? c) && (c <=? 13)) || ((28 <=? c) && (c <=? 30))
  || (c =? 133) || (c =? 8232) || (c =? 8233).

Fixpoint lstrip (s : str) : str :=
  match s with
  | [] => []
  | c :: s' => if isspace c then lstrip s' else s
  end.

Definition rstrip (s : str) : str := rev (lstrip (rev s)).

(** [s.strip()] *)
Definition strip (s : str) : str := lstrip (rstrip s).

(** Puts a character in front of the first piece of a split. *)
Definition cons_hd (c : char) (ls : list str) : list str :=
  match ls with
  | [] => [[c]]
  | l :: ls' => (c :: l) :: ls'
  end.

(** [s.splitlines()]: a boundary closes the current line, "\r\n" is one
    boundary, and no empty line follows a final boundary. *)
Fixpoint splitlines (s : str) : list str :=
  match s with
  | [] => []
  | c :: s' =>
      if is_linebreak c then
        [] :: match s' with
              | c' :: s'' =>
                  if (c =? 13) && (c' =? 10) then splitlines s''
                  else splitlines s'
              | [] => []
              end
      else cons_hd c (splitlines s')
  end.

(** [s.split("  ")]: cut at each occurrence of two spaces, left to right,
    without overlap.  The result is never empty. *)
Fixpoint split_2sp (s : str) : list str :=
  match s with
  | [] => [[]]
  | c :: s' =>
      match s' with
      | c' :: s'' =>
          if (c =? 32) && (c' =? 32) then [] :: split_2sp s''
          else cons_hd c (split_2sp s')
      | [] => [[c]]
      end
  end.

(** [s.split()]: the maximal runs of non-whitespace characters. *)
Fixpoint split_ws_from (cur : str) (s : str) : list str :=
  match s with
  | [] => if truthy cur then [rev cur] else []
  | c :: s' =>
      if isspace c then
        if truthy cur then rev cur :: split_ws_from [] s'
        else split_ws_from [] s'
      else split_ws_from (c :: cur) s'
  end.

Definition split_ws (s : str) : list str := split_ws_from [] s.

(** [sep.join(parts)] *)
Fixpoint join (sep : str) (parts : list str) : str :=
  match parts with
  | [] => []
  | [p] => p
  | p :: ps => p ++ sep ++ join sep ps
  end.

Fixpoint startswith (p s : str) : bool :=
  match p, s with
  | [], _ => true
  | _ :: _, [] => false
  | a :: p', b :: s' => (a =? b) && startswith p' s'
  end.

(** [needle in hay] *)
Fixpoint contains (needle hay : str) : bool :=
  startswith needle hay
  || match hay with
     | [] => false
     | _ :: hay' => contains needle hay'
     end.

(** [s.replace("og:", "")]: every occurrence of "og:", left to right,
    without overlap, is removed. *)
Fixpoint remove_og (s : str) : str :=
  match s with
  | [] => []
  | c :: s' =>
      match s' with
      | c1 :: c2 :: s'' =>
          if (c =? 111) && (c1 =? 103) && (c2 =? 58) then remove_og s''
          else c :: remove_og s'
      | _ => c :: remove_og s'
      end
  end.

(** [str(n)] of an [int]. *)
Definition str_of_int (n : Z) : str :=
  lit (NilZero.string_of_int (Z.to_int n)).

(** *** Codecs *)

Definition byte_val (b : byte) : Z := Z.of_N (Byte.to_N b).

Definition between (lo hi v : Z) : bool := (lo <=? v) && (v <=? hi).

(** The range of the second byte of a UTF-8 sequence, by its first byte:
    it excludes overlong forms, surrogates and code points above
    U+10FFFF. *)
Definition second_lo (v0 : Z) : Z :=
  if v0 =? 224 then 160 else if v0 =? 240 then 144 else 128.
Definition second_hi (v0 : Z) : Z :=
  if v0 =? 237 then 159 else if v0 =? 244 then 143 else 191.

(** [content.decode('utf-8')] (strict): [None] stands for
    [UnicodeDecodeError]. *)
Fixpoint utf8_decode (bs : bytes) : option str :=
  match bs with
  | [] => Some []
  | b0 :: r0 =>
      let v0 := byte_val b0 in
      if v0 <? 128 then cons v0 <$> utf8_decode r0
      else if between 194 223 v0 then
        match r0 with
        | b1 :: r1 =>
            let v1 := byte_val b1 in
            if between 128 191 v1
            then cons ((v0 - 192) * 64 + (v1 - 128)) <$> utf8_decode r1
            else None
        | _ => None
        end
      else if between 224 239 v0 then
        match r0 with
        | b1 :: b2 :: r2 =>
            let v1 := byte_val b1 in
            let v2 := byte_val b2 in
            if between (second_lo v0) (second_hi v0) v1 && between 128 191 v2
            then cons ((v0 - 224) * 4096 + (v1 - 128) * 64 + (v2 - 128))
                   <$> utf8_decode r2
            else None
        | _ => None
        end
      else if between 240 244 v0 then
        match r0 with
        | b1 :: b2 :: b3 :: r3 =>
            let v1 := byte_val b1 in
            let v2 := byte_val b2 in
            let v3 := byte_val b3 in
            if between (second_lo v0) (second_hi v0) v1
               && between 128 191 v2 && between 128 191 v3
            then cons ((v0 - 240) * 262144 + (v1 - 128) * 4096
                       + (v2 - 128) * 64 + (v3 - 128))
                   <$> utf8_decode r3
            else None
        | _ => None
        end
      else None
  end.

(** [content.decode('latin-1')]: the charmap of ISO 8859-1 sends the byte
    [b] to the code point [b].  A charmap codec fails on a byte its table
    leaves undefined; this table defines all 256. *)
Definition latin1_table (b : byte) : option char := Some (byte_val b).

Fixpoint charmap_decode (table : byte -> option char) (bs : bytes)
  : option str :=
  match bs with
  | [] => Some []
  | b :: bs' =>
      match table b with
      | Some c => cons c <$> charmap_decode table bs'
      | None => None
      end
  end.

Definition latin1_decode (bs : bytes) : option str :=
  charmap_decode latin1_table bs.

End Py.

Import Py.

(** ** Exceptions and [try]/[except] *)

(** The exception classes the handlers name or can meet: builtins,
    [json.JSONDecodeError], the classes of [requests.exceptions] and
    FastAPI's [HTTPException].  Classes that derive from [BaseException]
    only (KeyboardInterrupt, SystemExit) are outside the model. *)
Module exceptions.

Inductive cls :=
  | Exception | ValueError | UnicodeDecodeError | JSONDecodeError
  | AttributeError | RuntimeError | RecursionError | OSError
  | RequestException | HTTPError | ConnectionError | Timeout
  | ConnectTimeout | ReadTimeout | SSLError | ProxyError
  | TooManyRedirects | ChunkedEncodingError | ContentDecodingError
  | InvalidURL | HTTPException.

#[export] Instance cls_eq_dec : EqDecision cls.
Proof. solve_decision. Defined.

(** The direct base classes. *)
Definition bases (c : cls) : list cls :=
  match c with
  | Exception => []
  | ValueError | AttributeError | RuntimeError | OSError | HTTPException =>
      [Exception]
  | UnicodeDecodeError | JSONDecodeError => [ValueError]
  | RecursionError => [RuntimeError]
  | RequestException => [OSError]
  | HTTPError | ConnectionError | Timeout | TooManyRedirects
  | ChunkedEncodingError | ContentDecodingError => [RequestException]
  | ConnectTimeout => [ConnectionError; Timeout]
  | ReadTimeout => [Timeout]
  | SSLError | ProxyError => [ConnectionError]
  | InvalidURL => [RequestException; ValueError]
  end.

Fixpoint issubclass_depth (n : nat) (c d : cls) : bool :=
  bool_decide (c = d)
  || match n with
     | O => false
     | S n' => existsb (fun b => issubclass_depth n' b d) (bases c)
     end.

(** No chain of bases is longer than four steps. *)
Definition issubclass (c d : cls) : bool := issubclass_depth 4 c d.

End exceptions.

(** An exception value.  [Exc c msg response] is an instance of class [c]
    whose [str()] is [msg]; [response] is the attribute [e.response] of a
    requests exception, of which the handlers read [status_code] only
    ([None] when no response is attached).  [HTTPException] is FastAPI's,
    with the fields the framework turns into the HTTP reply. *)
Inductive exc :=
  | Exc (c : exceptions.cls) (msg : str) (response : option Z)
  | HTTPException (status_code : Z) (detail : str).

Definition class_of (e : exc) : exceptions.cls :=
  match e with
  | Exc c _ _ => c
  | HTTPException _ _ => exceptions.HTTPException
  end.

Definition isinstance (e : exc) (c : exceptions.cls) : bool :=
  exceptions.issubclass (class_of e) c.

(** [str(e)]; Starlette prints an [HTTPException] as "status: detail". *)
Definition str_exc (e : exc) : str :=
  match e with
  | Exc _ msg _ => msg
  | HTTPException status detail => str_of_int status ++ lit ": " ++ detail
  end.

(** The outcome of a Python computation. *)
Inductive result (A : Type) :=
  | Ok (a : A)
  | Raise (e : exc).
Arguments Ok {A} a.
Arguments Raise {A} e.

Definition bind {A B} (m : result A) (k : A -> result B) : result B :=
  match m with
  | Ok a => k a
  | Raise e => Raise e
  end.

#[export] Instance result_bind : MBind result := fun A B k m => bind m k.

(** The [except] clauses of a [try], in order: the first whose class the
    exception is an instance of handles it; with none, it propagates.  An
    exception raised by a handler is not offered to the later clauses. *)
Fixpoint dispatch {A} (e : exc)
    (clauses : list (exceptions.cls * (exc -> result A))) : result A :=
  match clauses with
  | [] => Raise e
  | (c, handler) :: rest =>
      if isinstance e c then handler e else dispatch e rest
  end.

Definition try_except {A} (body : result A)
    (clauses : list (exceptions.cls * (exc -> result A))) : result A :=
  match body with
  | Ok a => Ok a
  | Raise e => dispatch e clauses
  end.

(** [e.response.status_code]: on [None] the attribute access raises. *)
Definition response_status_code (e : exc) : result Z :=
  match e with
  | Exc _ _ (Some status) => Ok status
  | _ =>
      Raise (Exc exceptions.AttributeError
               (lit "'NoneType' object has no attribute 'status_code'") None)
  end.

(** What the framework sends for a handler's outcome: 200 with the model
    on return, the status of a raised [HTTPException], and 500 for any
    other exception that leaves the handler. *)
Definition http_status {A} (r : result A) : Z :=
  match r with
  | Ok _ => 200
  | Raise (HTTPException status _) => status
  | Raise (Exc _ _ _) => 500
  end.

(** ** BeautifulSoup's tree *)

Module bs4.

(** A parsed document.  [NavigableString] is the text [get_text] collects;
    [Comment] stands for the string classes it leaves out (comments,
    doctype, declarations).  The attributes of a [Tag] are the [attrs]
    dict in document order, with the raw value of each. *)
#[warnings="-register-all"] Inductive node :=
  | NavigableString (s : str)
  | Comment (s : str)
  | Tag (name : str) (attrs : list (str * str)) (contents : list node).

(** The object [BeautifulSoup(...)] returns: the top-level nodes. *)
Definition soup : Type := list node.

(** [tag.descendants], in document order. *)
Fixpoint descendants_of (n : node) : list node :=
  match n with
  | Tag _ _ contents => flat_map (fun c => c :: descendants_of c) contents
  | _ => []
  end.

Definition descendants (ns : soup) : list node :=
  flat_map (fun c => c :: descendants_of c) ns.

Definition strings_text (ns : list node) : str :=
  flat_map (fun n => match n with NavigableString s => s | _ => [] end) ns.

(** [tag.get_text()] and [soup.get_text()] *)
Definition get_text (n : node) : str := strings_text (descendants_of n).
Definition soup_get_text (ns : soup) : str := strings_text (descendants ns).

Fixpoint attrs_get (attrs : list (str * str)) (key : str) : option str :=
  match attrs with
  | [] => None
  | (k, v) :: rest => if str_eqb k key then Some v else attrs_get rest key
  end.

(** [tag.get(key, default)] *)
Definition get (n : node) (key dflt : str) : str :=
  match n with
  | Tag _ attrs _ => default dflt (attrs_get attrs key)
  | _ => dflt
  end.

(** [soup.find_all(...)] keeps the tags that match, in document order;
    [soup.find(...)] is the first of them, or [None]. *)
Definition find_all (p : node -> bool) (ns : soup) : list node :=
  List.filter p (descendants ns).

Definition find (p : node -> bool) (ns : soup) : option node :=
  head (find_all p ns).

(** Match on the tag name. *)
Definition named (name : str) (n : node) : bool :=
  match n with
  | Tag nm _ _ => str_eqb nm name
  | _ => false
  end.

(** Match on the tag name and on one attribute; a tag without the
    attribute does not match. *)
Definition named_with (name key : str) (p : str -> bool) (n : node) : bool :=
  match n with
  | Tag nm attrs _ =>
      str_eqb nm name
      && match attrs_get attrs key with Some v => p v | None => false end
  | _ => false
  end.

(** A pattern against the multi-valued attribute [class]: the parser
    splits its value on whitespace, and the pattern is tried on each
    token and then on the tokens joined by one space. *)
Definition matches_multi (p : str -> bool) (value : str) : bool :=
  let tokens := split_ws value in
  existsb p tokens || p (join (lit " ") tokens).

(** The tree after [tag.decompose()] on every tag that matches [p]: each
    such tag is gone with all it contains. *)
Fixpoint decompose (p : node -> bool) (n : node) : list node :=
  if p n then []
  else match n with
       | Tag nm attrs contents => [Tag nm attrs (flat_map (decompose p) contents)]
       | _ => [n]
       end.

Definition decompose_all (p : node -> bool) (ns : soup) : soup :=
  flat_map (decompose p) ns.

End bs4.

(** ** JSON values and HTTP responses *)

(** What [json.loads] returns; a number keeps its text. *)
#[warnings="-register-all"] Inductive json :=
  | JNull
  | JBool (b : bool)
  | JNumber (repr : str)
  | JString (s : str)
  | JList (items : list json)
  | JDict (items : list (str * json)).

(** [isinstance(json_data, dict)] and [list(json_data.keys())] *)
Definition is_dict (j : json) : bool :=
  match j with JDict _ => true | _ => false end.
Definition keys (j : json) : list str :=
  match j with JDict items => List.map fst items | _ => [] end.

Module requests.

(** [response.iter_content(...)]: the chunks of the body in order; the
    generator ends, or raises where the transfer breaks. *)
Inductive stream :=
  | StreamEnd
  | StreamChunk (chunk : bytes) (rest : stream)
  | StreamError (e : exc).

Record Response := mkResponse {
  status_code : Z;
  headers : list (str * str);
  iter_content : stream
}.

(** The arguments of [requests.get] and [requests.head]. *)
Record Request := mkRequest {
  req_url : str;
  req_headers : list (str * str);
  req_timeout : Z;
  req_allow_redirects : bool;
  req_stream : bool
}.

End requests.

(** ** The libraries *)

(** The library calls of the handlers.  [requests_get] and [requests_head]
    give the outcome of the outbound call; [http_error_msg] is the text
    [raise_for_status] builds; [int] is [None] where Python raises
    [ValueError]; [json_dumps] is [json.dumps(_, indent=2)]. *)
Class PyLib := {
  requests_get : requests.Request -> result requests.Response;
  requests_head : requests.Request -> result requests.Response;
  http_error_msg : requests.Response -> str;
  lower : str -> str;
  isdigit : str -> bool;
  int : str -> option Z;
  BeautifulSoup : str -> bs4.soup;
  json_loads : str -> result json;
  json_dumps : json -> str
}.

(** ** The response models *)

(** The values of the [metadata] dict: a string, or the list of strings
    under "json_keys". *)
Inductive meta_value :=
  | MStr (s : str)
  | MList (l : list str).

Module URLContentResponse.
Record t := mk {
  url : str;
  title : option str;
  content : str;
  content_type : str;
  status_code : Z;
  word_count : Z;
  metadata : gmap str meta_value
}.
End URLContentResponse.

Module URLAnalysisResponse.
Record t := mk {
  url : str;
  is_accessible : bool;
  content_type : option str;
  content_length : option Z;
  status_code : option Z;
  error_message : option str
}.
End URLAnalysisResponse.

(** ** Helper functions *)

(** The text clean-up at the end of [extract_text_from_html]: strip each
    line, split it on two spaces, strip each phrase, and join the phrases
    that are not empty with one space. *)
Definition clean_up (text : str) : str :=
  let lines := List.map strip (splitlines text) in
  let chunks :=
    flat_map (fun line => List.map strip (split_2sp line)) lines in
  join (lit " ") (List.filter truthy chunks).

Definition is_script_or_style (n : bs4.node) : bool :=
  bs4.named (lit "script") n || bs4.named (lit "style") n.

(** [re.compile(r'content|main|article').search] *)
Definition class_pattern (s : str) : bool :=
  contains (lit "content") s || contains (lit "main") s
  || contains (lit "article") s.

(** [re.compile(r'^og:').search] *)
Definition og_pattern (s : str) : bool := startswith (lit "og:") s.

Definition is_main_div (n : bs4.node) : bool :=
  bs4.named_with (lit "div") (lit "class") (bs4.matches_multi class_pattern) n.

Definition is_og_meta (n : bs4.node) : bool :=
  bs4.named_with (lit "meta") (lit "property") og_pattern n.

Definition is_meta_named (name : str) (n : bs4.node) : bool :=
  bs4.named_with (lit "meta") (lit "name") (fun v => str_eqb v name) n.

(** The body of the loop over [og_tags]. *)
Definition og_step (metadata : gmap str meta_value) (tag : bs4.node)
  : gmap str meta_value :=
  let property_name := remove_og (bs4.get tag (lit "property") []) in
  let content := bs4.get tag (lit "content") [] in
  if truthy property_name && truthy content
  then <[lit "og_" ++ property_name := MStr content]> metadata
  else metadata.

(** [a or b] on the results of [find]: a [Tag] is always true. *)
Definition or_else (a b : option bs4.node) : option bs4.node :=
  match a with
  | Some _ => a
  | None => b
  end.

(** [extract_text_from_html] after the parse. *)
Definition extract_from_soup (parsed : bs4.soup)
  : str * option str * gmap str meta_value :=
  (* Remove script and style elements *)
  let soup := bs4.decompose_all is_script_or_style parsed in
  (* Extract title *)
  let title :=
    match bs4.find (bs4.named (lit "title")) soup with
    | Some title_tag => Some (strip (bs4.get_text title_tag))
    | None => None
    end in
  (* Extract metadata *)
  let metadata : gmap str meta_value := ∅ in
  let metadata :=
    match bs4.find (is_meta_named (lit "description")) soup with
    | Some meta_desc =>
        <[lit "description" := MStr (bs4.get meta_desc (lit "content") [])]>
          metadata
    | None => metadata
    end in
  let metadata :=
    match bs4.find (is_meta_named (lit "keywords")) soup with
    | Some meta_keywords =>
        <[lit "keywords" := MStr (bs4.get meta_keywords (lit "content") [])]>
          metadata
    | None => metadata
    end in
  (* Open Graph data *)
  let og_tags := bs4.find_all is_og_meta soup in
  let metadata := fold_left og_step og_tags metadata in
  (* Extract main content *)
  let main_content :=
    or_else (bs4.find (bs4.named (lit "main")) soup)
      (or_else (bs4.find (bs4.named (lit "article")) soup)
         (bs4.find is_main_div soup)) in
  let text :=
    match main_content with
    | Some region => bs4.get_text region
    | None =>
        match bs4.find (bs4.named (lit "body")) soup with
        | Some body => bs4.get_text body
        | None => bs4.soup_get_text soup
        end
    end in
  (* Clean up text *)
  let text := clean_up text in
  (text, title, metadata).

Definition extract_text_from_html `{PyLib} (html_content url : str)
  : str * option str * gmap str meta_value :=
  extract_from_soup (BeautifulSoup html_content).

Definition get_user_agent : str :=
  lit "Mozilla/5.0 (compatible; URL-Access-Tool/1.0; +https://github.com/open-webui/openapi-servers)".

(** ** Routes *)

(** [response.headers.get(key)]: the dict of headers ignores the case of
    the key. *)
Fixpoint headers_get `{PyLib} (hs : list (str * str)) (key : str)
  : option str :=
  match hs with
  | [] => None
  | (k, v) :: rest =>
      if str_eqb (lower k) (lower key) then Some v else headers_get rest key
  end.

(** [response.raise_for_status()]: a status from 400 to 599 raises
    [HTTPError] with the response attached. *)
Definition raise_for_status `{PyLib} (response : requests.Response)
  : result unit :=
  if between 400 599 (requests.status_code response)
  then Raise (Exc exceptions.HTTPError (http_error_msg response)
                (Some (requests.status_code response)))
  else Ok tt.

Definition max_size : Z := 10 * 1024 * 1024.

(** The loop over [response.iter_content(chunk_size=8192)]: the value of
    [content] when the loop is left, and how it is left. *)
Fixpoint read_chunks (content : bytes) (chunks : requests.stream)
  : bytes * result unit :=
  match chunks with
  | requests.StreamEnd => (content, Ok tt)
  | requests.StreamError e => (content, Raise e)
  | requests.StreamChunk chunk rest =>
      let content := content ++ chunk in
      if Z.of_nat (length content) >? max_size
      then (content, Raise (HTTPException 413 (lit "Content too large (max 10MB)")))
      else read_chunks content rest
  end.

(** [content.decode(codec)] *)
Definition decode (codec : bytes -> option str) (content : bytes)
  : result str :=
  match codec content with
  | Some text => Ok text
  | None =>
      Raise (Exc exceptions.UnicodeDecodeError
               (lit "codec can't decode bytes") None)
  end.

(** The "Decode content" step. *)
Definition decode_content (content : bytes) : result str :=
  try_except (decode utf8_decode content)
    [(exceptions.UnicodeDecodeError, fun _ =>
        try_except (decode latin1_decode content)
          [(exceptions.UnicodeDecodeError, fun _ =>
              Raise (HTTPException 422
                       (lit "Unable to decode content as text")))])].

(** The "Process based on content type" step: the new values of
    [text_content], [title] and [metadata]. *)
Definition process_content `{PyLib} (content_type : str) (extract_text : bool)
    (text_content url_str : str)
  : result (str * option str * gmap str meta_value) :=
  let title : option str := None in
  let metadata : gmap str meta_value := ∅ in
  if contains (lit "text/html") content_type && extract_text then
    Ok (extract_text_from_html text_content url_str)
  else if contains (lit "application/json") content_type then
    try_except
      (json_data ← json_loads text_content;
       let text_content := json_dumps json_data in
       let metadata :=
         <[lit "json_keys" :=
             MList (if is_dict json_data then keys json_data else [])]>
           metadata in
       Ok (text_content, title, metadata))
      [(exceptions.JSONDecodeError, fun _ =>
          Ok (text_content, title, metadata))]
  else Ok (text_content, title, metadata).

(** GET /fetch.  [url] is the query parameter after validation, and
    [url_str] its text. *)
Definition fetch_url_content `{PyLib} (url : str)
    (extract_text follow_redirects : bool) (timeout : Z)
  : result URLContentResponse.t :=
  let url_str := url in
  let headers :=
    [(lit "User-Agent", get_user_agent);
     (lit "Accept",
      lit "text/html,application/xhtml+xml,application/xml;q=0.9,*/*;q=0.8");
     (lit "Accept-Language", lit "en-US,en;q=0.5");
     (lit "Accept-Encoding", lit "gzip, deflate");
     (lit "Connection", lit "keep-alive")] in
  try_except
    (response ← requests_get
       (requests.mkRequest url_str headers timeout follow_redirects true);
     raise_for_status response;;
     (* Get content type *)
     let content_type :=
       lower (default [] (headers_get (requests.headers response)
                            (lit "content-type"))) in
     (* Read content with size limit (10MB) *)
     let '(content, loop) := read_chunks [] (requests.iter_content response) in
     loop;;
     (* Decode content *)
     text_content ← decode_content content;
     (* Process based on content type *)
     '(text_content, title, metadata) ←
       process_content content_type extract_text text_content url_str;
     (* Count words *)
     let word_count := Z.of_nat (length (split_ws text_content)) in
     Ok (URLContentResponse.mk url_str title text_content content_type
           (requests.status_code response) word_count metadata))
    [(exceptions.Timeout, fun _ =>
        Raise (HTTPException 408 (lit "Request timeout")));
     (exceptions.ConnectionError, fun _ =>
        Raise (HTTPException 503 (lit "Unable to connect to the URL")));
     (exceptions.HTTPError, fun e =>
        status ← response_status_code e;
        Raise (HTTPException status (lit "HTTP error: " ++ str_exc e)));
     (exceptions.RequestException, fun e =>
        Raise (HTTPException 500 (lit "Request error: " ++ str_exc e)));
     (exceptions.Exception, fun e =>
        Raise (HTTPException 500
                 (lit "An internal error occurred: " ++ str_exc e)))].

(** [int(content_length)] *)
Definition int_of `{PyLib} (s : str) : result Z :=
  match int s with
  | Some n => Ok n
  | None =>
      Raise (Exc exceptions.ValueError
               (lit "invalid literal for int() with base 10") None)
  end.

(** GET /analyze *)
Definition analyze_url `{PyLib} (url : str) (timeout : Z)
  : result URLAnalysisResponse.t :=
  let url_str := url in
  let headers := [(lit "User-Agent", get_user_agent)] in
  try_except
    (response ← requests_head
       (requests.mkRequest url_str headers timeout true false);
     let content_type :=
       default [] (headers_get (requests.headers response)
                     (lit "content-type")) in
     let content_length :=
       headers_get (requests.headers response) (lit "content-length") in
     content_length ←
       match content_length with
       | Some v =>
           if truthy v && isdigit v then n ← int_of v; Ok (Some n)
           else Ok None
       | None => Ok None
       end;
     Ok (URLAnalysisResponse.mk url_str true (Some content_type)
           content_length (Some (requests.status_code response)) None))
    [(exceptions.Timeout, fun _ =>
        Ok (URLAnalysisResponse.mk url_str false None None None
              (Some (lit "Request timeout"))));
     (exceptions.ConnectionError, fun _ =>
        Ok (URLAnalysisResponse.mk url_str false None None None
              (Some (lit "Unable to connect to the URL"))));
     (exceptions.HTTPError, fun e =>
        status ← response_status_code e;
        Ok (URLAnalysisResponse.mk url_str false None None (Some status)
              (Some (lit "HTTP error: " ++ str_exc e))));
     (exceptions.RequestException, fun e =>
        Ok (URLAnalysisResponse.mk url_str false None None None
              (Some (lit "Request error: " ++ str_exc e))));
     (exceptions.Exception, fun e =>
        Ok (URLAnalysisResponse.mk url_str false None None None
              (Some (lit "An internal error occurred: " ++ str_exc e))))].

(** ** Notions used to state the properties *)

(** A body that arrives as [chunks] and goes on as [rest]. *)
Fixpoint of_chunks (chunks : list bytes) (rest : requests.stream)
  : requests.stream :=
  match chunks with
  | [] => rest
  | chunk :: chunks' => requests.StreamChunk chunk (of_chunks chunks' rest)
  end.

(** The exception the read loop raises. *)
Definition too_large : exc :=
  HTTPException 413 (lit "Content too large (max 10MB)").

(** [x] is the first element of [l] that satisfies [p]. *)
Definition first_match {A} (p : A -> bool) (l : list A) (x : A) : Prop :=
  exists before after,
    l = before ++ x :: after /\ forallb (fun y => negb (p y)) before = true
    /\ p x = true.

Definition no_match {A} (p : A -> bool) (l : list A) : Prop :=
  forallb (fun y => negb (p y)) l = true.

(** Two documents that differ at most in their script and style elements
    (in what these contain and in their attributes). *)
Inductive same_outside : bs4.node -> bs4.node -> Prop :=
  | same_string s :
      same_outside (bs4.NavigableString s) (bs4.NavigableString s)
  | same_comment s : same_outside (bs4.Comment s) (bs4.Comment s)
  | same_removed n1 n2 :
      is_script_or_style n1 = true -> is_script_or_style n2 = true ->
      same_outside n1 n2
  | same_tag name attrs cs1 cs2 :
      same_outside_list cs1 cs2 ->
      same_outside (bs4.Tag name attrs cs1) (bs4.Tag name attrs cs2)
with same_outside_list : list bs4.node -> list bs4.node -> Prop :=
  | same_nil : same_outside_list [] []
  | same_cons n1 n2 l1 l2 :
      same_outside n1 n2 -> same_outside_list l1 l2 ->
      same_outside_list (n1 :: l1) (n2 :: l2).

Scheme same_outside_mut := Induction for same_outside Sort Prop
  with same_outside_list_mut := Induction for same_outside_list Sort Prop.
Combined Scheme same_outside_both
  from same_outside_mut, same_outside_list_mut.

(** An exception as requests raises it: [HTTPError] is built by
    [raise_for_status] alone, which attaches the response. *)
Definition carries_response (e : exc) : Prop :=
  isinstance e exceptions.HTTPError = true ->
  exists c msg status, e = Exc c msg (Some status).

(** ** Libraries with fixed answers, for the examples *)

Module Fixture.

Definition ascii_lower (s : str) : str :=
  List.map (fun c => if between 65 90 c then c + 32 else c) s.

Definition ascii_isdigit (s : str) : bool :=
  truthy s && forallb (between 48 57) s.

Definition ascii_int (s : str) : option Z :=
  if ascii_isdigit s
  then Some (fold_left (fun n c => 10 * n + (c - 48)) s 0)
  else None.

(** The parse of markup that has no tag in it: one text node. *)
Definition plain_text (html : str) : bs4.soup := [bs4.NavigableString html].

(** [json.loads] on the two bodies of the examples: an empty object, and
    anything else taken as not JSON. *)
Definition loads_empty_object (s : str) : result json :=
  if str_eqb s (lit "{}") then Ok (JDict [])
  else Raise (Exc exceptions.JSONDecodeError
                (lit "Expecting value: line 1 column 1 (char 0)") None).

Definition lib (get head : result requests.Response)
    (parse : str -> bs4.soup) : PyLib := {|
  requests_get := fun _ => get;
  requests_head := fun _ => head;
  http_error_msg := fun r => str_of_int (requests.status_code r) ++ lit " Error";
  lower := ascii_lower;
  isdigit := ascii_isdigit;
  int := ascii_int;
  BeautifulSoup := parse;
  json_loads := loads_empty_object;
  json_dumps := fun _ => lit "{}"
|}.

Definition unreachable : result requests.Response :=
  Raise (Exc exceptions.ConnectionError (lit "Max retries exceeded") None).

Definition respond (status : Z) (content_type : str) (chunks : list bytes)
  : result requests.Response :=
  Ok (requests.mkResponse status [(lit "Content-Type", content_type)]
        (of_chunks chunks requests.StreamEnd)).

(** The bytes of an ASCII literal. *)
Definition body (s : string) : bytes := list_byte_of_string s.

(** A body of [n] zero bytes. *)
Definition zeros (n : Z) : bytes := repeat x00 (Z.to_nat n).


(** Documents as the parser builds them. *)
Definition attr (key value : string) : str * str := (lit key, lit value).

Definition el (name : string) (attrs : list (str * str))
    (contents : list bs4.node) : bs4.node :=
  bs4.Tag (lit name) attrs contents.

Definition txt (s : string) : bs4.node := bs4.NavigableString (lit s).

Definition page_main : bs4.soup :=
  [el "html" []
     [el "head" []
        [el "title" [] [txt "T"]; el "script" [] [txt "var main = 1;"]];
      el "body" []
        [el "div" [attr "class" "content"] [txt "side"];
         el "main" [] [txt "  Hello   World  "];
         el "article" [] [txt "later"]]]].

Definition page_article : bs4.soup :=
  [el "body" []
     [el "div" [attr "class" "content"] [txt "side"];
      el "article" [] [txt "An article"]]].

Definition page_div : bs4.soup :=
  [el "body" []
     [el "div" [attr "class" "Content"] [txt "banner"];
      el "div" [attr "class" "box my-content"] [txt "In the div"];
      el "p" [] [txt "after"]]].

Definition page_body : bs4.soup :=
  [el "html" []
     [el "head" [] [el "title" [] [txt "T"]];
      el "body" [] [el "p" [] [txt "In the body"]]]].

Definition page_bare : bs4.soup := [el "p" [] [txt "No body"]; txt " at all"].

Definition page_og : bs4.soup :=
  [el "meta" [attr "property" "og:title"; attr "content" "Hello"] [];
   el "meta" [attr "property" "og:image"; attr "content" ""] [];
   el "meta" [attr "property" "og:title"] []].

Definition page_og_twice : bs4.soup :=
  [el "meta" [attr "property" "og:image"; attr "content" "a.png"] [];
   el "meta" [attr "property" "og:image"; attr "content" "b.png"] []].

(** Two pages that differ in their script only, and their parses. *)
Definition src_a : str := lit "<p>Hi  there</p><script>a()</script>".
Definition src_b : str := lit "<p>Hi  there</p><script>b()</script>".

Definition parse (html : str) : bs4.soup :=
  if str_eqb html src_a
  then [el "p" [] [txt "Hi  there"]; el "script" [] [txt "a()"]]
  else if str_eqb html src_b
  then [el "p" [] [txt "Hi  there"]; el "script" [] [txt "b()"]]
  else plain_text html.

End Fixture.

(** The outbound requests of the two handlers. *)
Definition fetch_request (url : str) (follow_redirects : bool) (timeout : Z)
  : requests.Request :=
  requests.mkRequest url
    [(lit "User-Agent", get_user_agent);
     (lit "Accept",
      lit "text/html,application/xhtml+xml,application/xml;q=0.9,*/*;q=0.8");
     (lit "Accept-Language", lit "en-US,en;q=0.5");
     (lit "Accept-Encoding", lit "gzip, deflate");
     (lit "Connection", lit "keep-alive")]
    timeout follow_redirects true.

Definition analyze_request (url : str) (timeout : Z) : requests.Request :=
  requests.mkRequest url [(lit "User-Agent", get_user_agent)] timeout
    true false.

(** Two spaces in a row somewhere in [s]. *)
Fixpoint has_2sp (s : str) : bool :=
  match s with
  | [] => false
  | c :: s' =>
      match s' with
      | c' :: _ => (c =? 32) && (c' =? 32) || has_2sp s'
      | [] => false
      end
  end.

(** [s] starts with a character that is not whitespace. *)
Definition starts_solid (s : str) : bool :=
  match s with
  | [] => false
  | c :: _ => negb (isspace c)
  end.

Definition no_breaks (s : str) : Prop :=
  Forall (fun c => is_linebreak c = false) s.

(** What the clean-up produces: one line, with no whitespace at either end
    and no two spaces in a row. *)
Definition tidy (s : str) : Prop :=
  starts_solid s = true /\ starts_solid (rev s) = true
  /\ no_breaks s /\ has_2sp s = false.

(** A word with no whitespace in it. *)
Definition solid (w : str) : Prop := Forall (fun c => isspace c = false) w.

(** The failure categories of the two handlers, by exception class. *)
Inductive category :=
  | TimedOut
  | Unreachable
  | UpstreamStatus
  | TransportOther
  | Internal.

Definition category_of (c : exceptions.cls) : category :=
  match c with
  | exceptions.Timeout | exceptions.ConnectTimeout | exceptions.ReadTimeout =>
      TimedOut
  | exceptions.ConnectionError | exceptions.SSLError | exceptions.ProxyError =>
      Unreachable
  | exceptions.HTTPError => UpstreamStatus
  | exceptions.RequestException | exceptions.TooManyRedirects
  | exceptions.ChunkedEncodingError | exceptions.ContentDecodingError
  | exceptions.InvalidURL => TransportOther
  | _ => Internal
  end.

(** What /fetch raises in place of an exception of its try block. *)
Definition fetch_reports (e : exc) : exc :=
  match category_of (class_of e) with
  | TimedOut => HTTPException 408 (lit "Request timeout")
  | Unreachable => HTTPException 503 (lit "Unable to connect to the URL")
  | UpstreamStatus =>
      match response_status_code e with
      | Ok status => HTTPException status (lit "HTTP error: " ++ str_exc e)
      | Raise e' => e'
      end
  | TransportOther => HTTPException 500 (lit "Request error: " ++ str_exc e)
  | Internal =>
      HTTPException 500 (lit "An internal error occurred: " ++ str_exc e)
  end.

(** What /analyze returns for an exception of its try block. *)
Definition analyze_reports (url : str) (e : exc)
  : result URLAnalysisResponse.t :=
  let failed status message :=
    Ok (URLAnalysisResponse.mk url false None None status (Some message)) in
  match category_of (class_of e) with
  | TimedOut => failed None (lit "Request timeout")
  | Unreachable => failed None (lit "Unable to connect to the URL")
  | UpstreamStatus =>
      match response_status_code e with
      | Ok status => failed (Some status) (lit "HTTP error: " ++ str_exc e)
      | Raise e' => Raise e'
      end
  | TransportOther => failed None (lit "Request error: " ++ str_exc e)
  | Internal => failed None (lit "An internal error occurred: " ++ str_exc e)
  end.

(** The chunks a stream delivers, and whether it ends without an error. *)
Fixpoint stream_chunks (s : requests.stream) : list bytes :=
  match s with
  | requests.StreamChunk chunk rest => chunk :: stream_chunks rest
  | _ => []
  end.

Fixpoint stream_complete (s : requests.stream) : bool :=
  match s with
  | requests.StreamEnd => true
  | requests.StreamChunk _ rest => stream_complete rest
  | requests.StreamError _ => false
  end.

(** A library that differs from [L] in [json.loads], or in [str.isdigit]. *)
Definition with_json_loads (L : PyLib) (loads : str -> result json) : PyLib :=
  {| requests_get := @requests_get L;
     requests_head := @requests_head L;
     http_error_msg := @http_error_msg L;
     lower := @lower L;
     isdigit := @isdigit L;
     int := @int L;
     BeautifulSoup := @BeautifulSoup L;
     json_loads := loads;
     json_dumps := @json_dumps L |}.



(** The words of a text given in pieces, the first of which continues
    the word [rev cur]. *)
Definition words_of_pieces (cur : str) (pieces : list str) : list str :=
  match pieces with
  | [] => split_ws_from cur []
  | p :: ps => split_ws_from cur p ++ flat_map split_ws ps
  end.

(** * Properties *)

(** ** Exceptions *)

Lemma isinstance_Exception (e : exc) :
  isinstance e exceptions.Exception = true.
Proof. destruct e as [c msg resp | status detail]; [destruct c |]; reflexivity. Qed.

Lemma lit_app_nonempty (s : string) (t : str) :
  s <> EmptyString -> lit s ++ t <> [].
Proof. destruct s; [congruence | discriminate]. Qed.

Ltac reports_failure :=
  eexists; split; [reflexivity |]; split; [reflexivity |];
  split; [reflexivity |]; eexists; split; [reflexivity | discriminate].

(** The clauses of [analyze_url] turn every exception whose response can be
    read into a result that reports the failure. *)
Lemma analyze_clauses_total (url_str : str) (e : exc) :
  carries_response e ->
  exists r,
    dispatch e
      [(exceptions.Timeout, fun _ =>
          Ok (URLAnalysisResponse.mk url_str false None None None
                (Some (lit "Request timeout"))));
       (exceptions.ConnectionError, fun _ =>
          Ok (URLAnalysisResponse.mk url_str false None None None
                (Some (lit "Unable to connect to the URL"))));
       (exceptions.HTTPError, fun e =>
          status ← response_status_code e;
          Ok (URLAnalysisResponse.mk url_str false None None (Some status)
                (Some (lit "HTTP error: " ++ str_exc e))));
       (exceptions.RequestException, fun e =>
          Ok (URLAnalysisResponse.mk url_str false None None None
                (Some (lit "Request error: " ++ str_exc e))));
       (exceptions.Exception, fun e =>
          Ok (URLAnalysisResponse.mk url_str false None None None
                (Some (lit "An internal error occurred: " ++ str_exc e))))]
    = Ok r
    /\ URLAnalysisResponse.url r = url_str
    /\ URLAnalysisResponse.is_accessible r = false
    /\ exists m, URLAnalysisResponse.error_message r = Some m /\ m <> [].
Proof.
  intros Hresp. unfold dispatch.
  destruct (isinstance e exceptions.Timeout) eqn:Ht; [reports_failure |].
  destruct (isinstance e exceptions.ConnectionError) eqn:Hc;
    [reports_failure |].
  destruct (isinstance e exceptions.HTTPError) eqn:Hh.
  { destruct (Hresp Hh) as (c & msg & status & ->).
    cbn [response_status_code mbind result_bind bind]. reports_failure. }
  destruct (isinstance e exceptions.RequestException) eqn:Hr;
    [reports_failure |].
  rewrite isinstance_Exception. reports_failure.
Qed.

Lemma value_error_carries_response (msg : str) :
  carries_response (Exc exceptions.ValueError msg None).
Proof. intros Hinst. discriminate Hinst. Qed.

(** C2. /analyze never raises: whatever way the HEAD request fails (an
    exception of class Timeout, ConnectionError, HTTPError with its
    response, any other RequestException, any other Exception), the handler
    returns a URLAnalysisResponse with is_accessible = false and a
    non-empty error_message, and the reply has status 200.  It also
    returns a model whenever the HEAD request succeeds. *)
Theorem analyze_url_never_raises `{PyLib} (url : str) (timeout : Z) :
  (forall e, requests_head (analyze_request url timeout) = Raise e ->
             carries_response e) ->
  exists r,
    analyze_url url timeout = Ok r
    /\ http_status (analyze_url url timeout) = 200
    /\ (forall e, requests_head (analyze_request url timeout) = Raise e ->
          URLAnalysisResponse.is_accessible r = false
          /\ exists m, URLAnalysisResponse.error_message r = Some m
                       /\ m <> []).
Proof.
  intros Hlib. unfold analyze_url. cbv zeta.
  change (requests.mkRequest url _ timeout true false)
    with (analyze_request url timeout).
  match goal with
  | |- context [try_except _ ?cl] => set (clauses := cl)
  end.
  assert (Hclauses : forall e, carries_response e ->
            exists r, dispatch e clauses = Ok r
              /\ URLAnalysisResponse.is_accessible r = false
              /\ exists m, URLAnalysisResponse.error_message r = Some m
                           /\ m <> []).
  { intros e He. destruct (analyze_clauses_total url e He)
      as (r & Hr & _ & Hacc & Hmsg). exists r. auto. }
  destruct (requests_head (analyze_request url timeout))
    as [response | e] eqn:Hhead.
  - assert (Hok : forall b : result URLAnalysisResponse.t,
              (forall e, b = Raise e -> carries_response e) ->
              exists r, try_except b clauses = Ok r).
    { intros [r | e] Hb; [exists r; reflexivity |].
      destruct (Hclauses e (Hb e eq_refl)) as (r & Hr & _).
      exists r. exact Hr. }
    match goal with
    | |- context [try_except ?b clauses] => destruct (Hok b) as (r & Hr)
    end.
    + intros e. cbn [mbind result_bind bind].
      destruct (headers_get (requests.headers response) (lit "content-length"))
        as [v |]; [| discriminate].
      destruct (truthy v && isdigit v); [| discriminate].
      unfold int_of. destruct (int v); [discriminate |].
      cbn [mbind result_bind bind]. intros [= <-].
      apply value_error_carries_response.
    + exists r. rewrite Hr. split; [reflexivity |]. split; [reflexivity |].
      intros e' He. discriminate He.
  - cbn [mbind result_bind bind try_except].
    destruct (Hclauses e (Hlib e eq_refl)) as (r & Hr & Hacc & Hmsg).
    exists r. rewrite Hr. split; [reflexivity |]. split; [reflexivity |].
    intros e' _. auto.
Qed.

Lemma analyze_url_never_raises_witness :
  exists r,
    @analyze_url
      (Fixture.lib Fixture.unreachable Fixture.unreachable Fixture.plain_text)
      (lit "http://host.invalid/") 10 = Ok r
    /\ http_status
         (@analyze_url
            (Fixture.lib Fixture.unreachable Fixture.unreachable
               Fixture.plain_text)
            (lit "http://host.invalid/") 10) = 200
    /\ (forall e,
          Fixture.unreachable = Raise e ->
          URLAnalysisResponse.is_accessible r = false
          /\ exists m, URLAnalysisResponse.error_message r = Some m
                       /\ m <> []).
Proof.
  apply (@analyze_url_never_raises
           (Fixture.lib Fixture.unreachable Fixture.unreachable
              Fixture.plain_text)
           (lit "http://host.invalid/") 10).
  intros e He. injection He as <-. intros Hinst. discriminate Hinst.
Defined.

(** The case [carries_response] leaves out: were an HTTPError raised with
    no response attached, the handler of that clause would raise
    AttributeError on [e.response.status_code], and that would leave
    [analyze_url].  requests never builds such an HTTPError. *)
Lemma analyze_url_http_error_without_response `{PyLib} (url : str)
    (timeout : Z) (msg : str) :
  requests_head (analyze_request url timeout)
    = Raise (Exc exceptions.HTTPError msg None) ->
  http_status (analyze_url url timeout) = 500.
Proof.
  intros Hhead. unfold analyze_url. cbv zeta.
  change (requests.mkRequest url _ timeout true false)
    with (analyze_request url timeout).
  rewrite Hhead. reflexivity.
Qed.

(** C3 (the code at the failing input). A HEAD request that is answered
    with an upstream error status (400 to 599) is not a failure for
    /analyze: the handler never calls raise_for_status, so it reports
    is_accessible = true with that status and no error_message. *)
Theorem analyze_url_error_status_is_accessible `{PyLib} (url : str)
    (timeout : Z) (response : requests.Response) :
  requests_head (analyze_request url timeout) = Ok response ->
  between 400 599 (requests.status_code response) = true ->
  (forall v, headers_get (requests.headers response) (lit "content-length")
               = Some v ->
             truthy v && isdigit v = true -> int v <> None) ->
  exists r,
    analyze_url url timeout = Ok r
    /\ URLAnalysisResponse.is_accessible r = true
    /\ URLAnalysisResponse.status_code r
       = Some (requests.status_code response)
    /\ URLAnalysisResponse.error_message r = None.
Proof.
  intros Hhead _ Hint. unfold analyze_url. cbv zeta.
  change (requests.mkRequest url _ timeout true false)
    with (analyze_request url timeout).
  rewrite Hhead. cbn [mbind result_bind bind].
  destruct (headers_get (requests.headers response) (lit "content-length"))
    as [v |]; [| eexists; repeat split; reflexivity].
  destruct (truthy v && isdigit v) eqn:Hdigit;
    [| eexists; repeat split; reflexivity].
  unfold int_of. specialize (Hint v eq_refl Hdigit).
  destruct (int v) as [n |]; [| congruence].
  eexists; repeat split; reflexivity.
Qed.

Lemma analyze_url_error_status_is_accessible_witness :
  exists r,
    @analyze_url
      (Fixture.lib Fixture.unreachable (Fixture.respond 404 (lit "text/html") [])
         Fixture.plain_text)
      (lit "http://example.com/missing") 10 = Ok r
    /\ URLAnalysisResponse.is_accessible r = true
    /\ URLAnalysisResponse.status_code r = Some 404
    /\ URLAnalysisResponse.error_message r = None.
Proof.
  apply (@analyze_url_error_status_is_accessible
           (Fixture.lib Fixture.unreachable
              (Fixture.respond 404 (lit "text/html") []) Fixture.plain_text)
           (lit "http://example.com/missing") 10
           (requests.mkResponse 404 [(lit "Content-Type", lit "text/html")]
              requests.StreamEnd)).
  - reflexivity.
  - reflexivity.
  - intros v Hv. discriminate Hv.
Defined.

(** ** Decoding the body *)

Lemma latin1_decode_total (content : bytes) :
  latin1_decode content = Some (List.map byte_val content).
Proof.
  unfold latin1_decode.
  induction content as [| b content IH]; [reflexivity |].
  cbn [charmap_decode latin1_table List.map]. rewrite IH. reflexivity.
Qed.

Lemma decode_content_cases (content : bytes) :
  decode_content content
  = Ok (default (List.map byte_val content) (utf8_decode content)).
Proof.
  unfold decode_content, decode.
  destruct (utf8_decode content) as [text |]; [reflexivity |].
  rewrite latin1_decode_total. reflexivity.
Qed.

(** C10. The Latin-1 decoding accepts every byte sequence (each byte b
    gives the code point b), so the "Decode content" step always produces
    a text: the UTF-8 text when the bytes are valid UTF-8 and the Latin-1
    text when they are not; it never raises, and the branch that raises
    the 422 error is never taken. *)
Theorem decode_content_never_fails (content : bytes) :
  latin1_decode content = Some (List.map byte_val content)
  /\ (exists text, decode_content content = Ok text)
  /\ (utf8_decode content = None ->
      decode_content content = Ok (List.map byte_val content))
  /\ (forall text, utf8_decode content = Some text ->
      decode_content content = Ok text)
  /\ (forall e, decode_content content <> Raise e).
Proof.
  rewrite decode_content_cases. split; [apply latin1_decode_total |].
  split; [eexists; reflexivity |].
  split; [intros ->; reflexivity |].
  split; [intros text ->; reflexivity | discriminate].
Qed.

Lemma decode_content_never_fails_witness :
  utf8_decode [xff; x41] = None
  /\ decode_content [xff; x41] = Ok [255; 65].
Proof.
  split; [reflexivity |].
  exact (proj1 (proj2 (proj2 (decode_content_never_fails [xff; x41])))
           eq_refl).
Defined.

(** ** The size cap of /fetch *)

Section ReadChunks.

Implicit Types (content chunk : bytes) (chunks : list bytes).
Implicit Types (rest : requests.stream).

Lemma read_chunks_step content chunk rest :
  read_chunks content (requests.StreamChunk chunk rest)
  = if Z.of_nat (length (content ++ chunk)) >? max_size
    then (content ++ chunk, Raise too_large)
    else read_chunks (content ++ chunk) rest.
Proof. reflexivity. Qed.

(** While the accumulated size stays within the cap, the loop goes on. *)
Lemma read_chunks_within chunks : forall content rest,
  Z.of_nat (length (content ++ concat chunks)) <= max_size ->
  read_chunks content (of_chunks chunks rest)
  = read_chunks (content ++ concat chunks) rest.
Proof.
  induction chunks as [| chunk chunks IH]; intros content rest Hsize.
  - cbn [concat of_chunks]. rewrite app_nil_r. reflexivity.
  - cbn [concat of_chunks] in *. rewrite read_chunks_step.
    rewrite app_assoc in Hsize.
    assert (Hle : Z.of_nat (length (content ++ chunk)) <= max_size).
    { rewrite length_app in Hsize. lia. }
    destruct (Z.gtb_spec (Z.of_nat (length (content ++ chunk))) max_size)
      as [Hgt | _]; [lia |].
    rewrite IH by exact Hsize. rewrite app_assoc. reflexivity.
Qed.

(** The first chunk that takes the size over the cap ends the loop. *)
Lemma read_chunks_overflow chunks : forall content chunk rest,
  Z.of_nat (length (content ++ concat chunks)) <= max_size ->
  max_size < Z.of_nat (length (content ++ concat chunks ++ chunk)) ->
  read_chunks content (of_chunks chunks (requests.StreamChunk chunk rest))
  = (content ++ concat chunks ++ chunk, Raise too_large).
Proof.
  intros content chunk rest Hle Hgt.
  rewrite read_chunks_within by exact Hle. rewrite read_chunks_step.
  rewrite <- app_assoc.
  destruct (Z.gtb_spec (Z.of_nat (length (content ++ concat chunks ++ chunk)))
              max_size) as [_ | Hno]; [reflexivity | lia].
Qed.

(** A loop over a body that arrives whole is left early only by the
    too-large abort, right after the chunk that took the size over. *)
Lemma read_chunks_abort_inv chunks : forall content c r,
  Z.of_nat (length content) <= max_size ->
  read_chunks content (of_chunks chunks requests.StreamEnd) = (c, r) ->
  r <> Ok tt ->
  exists before chunk after,
    chunks = before ++ chunk :: after
    /\ c = content ++ concat before ++ chunk
    /\ Z.of_nat (length (content ++ concat before)) <= max_size
    /\ max_size < Z.of_nat (length c)
    /\ r = Raise too_large.
Proof.
  induction chunks as [| chunk chunks IH]; intros content c r Hcontent Hrun Hr.
  - cbn [of_chunks read_chunks] in Hrun. congruence.
  - cbn [of_chunks] in Hrun. rewrite read_chunks_step in Hrun.
    destruct (Z.gtb_spec (Z.of_nat (length (content ++ chunk))) max_size)
      as [Hgt | Hle].
    + injection Hrun as <- <-. exists [], chunk, chunks.
      cbn [concat app]. rewrite app_nil_r. auto.
    + destruct (IH _ _ _ Hle Hrun Hr)
        as (before & chunk' & after & -> & -> & Hbefore & Hover & ->).
      exists (chunk :: before), chunk', after. cbn [concat app].
      rewrite <- !app_assoc in *. auto.
Qed.

End ReadChunks.

(** C4. The cap of /fetch is strict and checked after each chunk: a body
    whose size is at most 10 MiB, and so one of exactly 10 MiB, is read
    whole without the too-large abort; the loop is left early only right
    after a chunk that takes the accumulated size above 10 MiB, having
    read all the bytes up to the end of that chunk (more than 10 MiB). *)
Theorem size_cap_is_strict :
  max_size = 10 * 1024 * 1024
  /\ (forall chunks : list bytes,
        Z.of_nat (length (concat chunks)) <= max_size ->
        read_chunks [] (of_chunks chunks requests.StreamEnd)
        = (concat chunks, Ok tt))
  /\ (forall chunks : list bytes,
        Z.of_nat (length (concat chunks)) = max_size ->
        read_chunks [] (of_chunks chunks requests.StreamEnd)
        = (concat chunks, Ok tt))
  /\ (forall (before : list bytes) (chunk : bytes) (rest : requests.stream),
        Z.of_nat (length (concat before)) <= max_size ->
        max_size < Z.of_nat (length (concat before ++ chunk)) ->
        read_chunks [] (of_chunks before (requests.StreamChunk chunk rest))
        = (concat before ++ chunk, Raise too_large))
  /\ (forall (chunks : list bytes) (c : bytes) (r : result unit),
        read_chunks [] (of_chunks chunks requests.StreamEnd) = (c, r) ->
        r <> Ok tt ->
        exists before chunk after,
          chunks = before ++ chunk :: after
          /\ c = concat before ++ chunk
          /\ Z.of_nat (length (concat before)) <= max_size
          /\ max_size < Z.of_nat (length c)
          /\ r = Raise too_large).
Proof.
  assert (Hwithin : forall chunks : list bytes,
            Z.of_nat (length (concat chunks)) <= max_size ->
            read_chunks [] (of_chunks chunks requests.StreamEnd)
            = (concat chunks, Ok tt)).
  { intros chunks Hle. rewrite read_chunks_within by exact Hle. reflexivity. }
  split; [reflexivity |]. split; [exact Hwithin |].
  split; [intros chunks Heq; apply Hwithin; lia |].
  split.
  - intros before chunk rest Hle Hgt.
    apply (read_chunks_overflow before [] chunk rest); assumption.
  - intros chunks c r Hrun Hr.
    apply (read_chunks_abort_inv chunks [] c r); [| assumption | assumption].
    unfold max_size. cbn [length]. lia.
Qed.

Lemma size_cap_is_strict_witness :
  read_chunks [] (of_chunks [[x68; x69]; [x21]] requests.StreamEnd)
  = ([x68; x69; x21], Ok tt).
Proof.
  apply (proj1 (proj2 size_cap_is_strict) [[x68; x69]; [x21]]).
  unfold max_size. cbn [concat app length]. lia.
Defined.

Lemma length_zeros (n : Z) :
  0 <= n -> Z.of_nat (length (Fixture.zeros n)) = n.
Proof. intros Hn. unfold Fixture.zeros. rewrite repeat_length. lia. Qed.

(** A body of exactly 10 MiB is read whole; with one byte more the loop is
    left by the too-large abort. *)
Lemma read_chunks_ten_mib :
  read_chunks [] (of_chunks [Fixture.zeros max_size] requests.StreamEnd)
  = (Fixture.zeros max_size, Ok tt)
  /\ read_chunks []
       (requests.StreamChunk (Fixture.zeros (max_size + 1)) requests.StreamEnd)
     = (Fixture.zeros (max_size + 1), Raise too_large).
Proof.
  split.
  - assert (Hc : concat [Fixture.zeros max_size] = Fixture.zeros max_size).
    { rewrite concat_cons, concat_nil. apply app_nil_r. }
    rewrite (read_chunks_within [Fixture.zeros max_size] []
               requests.StreamEnd).
    + rewrite Hc, app_nil_l. reflexivity.
    + rewrite Hc, app_nil_l, length_zeros; unfold max_size; lia.
  - rewrite read_chunks_step, app_nil_l.
    destruct (Z.gtb_spec (Z.of_nat (length (Fixture.zeros (max_size + 1))))
                max_size) as [_ | Hno]; [reflexivity |].
    rewrite length_zeros in Hno; unfold max_size in *; lia.
Qed.


(** ** The errors of /fetch *)

(** An abort of the read loop does not leave the handler as it was
    raised: the HTTPException with status 413 is raised inside the
    handler's own try block; it is an Exception, so the last except clause
    catches it and raises a 500 in its place. *)
Lemma fetch_abort_caught `{PyLib} (url : str)
    (extract_text follow_redirects : bool) (timeout : Z)
    (response : requests.Response) (content : bytes) :
  requests_get (fetch_request url follow_redirects timeout) = Ok response ->
  between 400 599 (requests.status_code response) = false ->
  read_chunks [] (requests.iter_content response)
    = (content, Raise too_large) ->
  fetch_url_content url extract_text follow_redirects timeout
  = Raise (HTTPException 500
             (lit "An internal error occurred: 413: Content too large (max 10MB)")).
Proof.
  intros Hget Hstatus Hread.
  unfold fetch_url_content. cbv zeta.
  change (requests.mkRequest url _ timeout follow_redirects true)
    with (fetch_request url follow_redirects timeout).
  rewrite Hget. cbn [mbind result_bind bind].
  unfold raise_for_status. rewrite Hstatus. cbn [mbind result_bind bind].
  rewrite Hread. reflexivity.
Qed.

(** C1 (the code at the failing input). When the body of a /fetch response
    grows past 10 MiB, at whatever chunk of the stream, the caller does not
    receive the 413: the handler raises a 500 "An internal error occurred"
    that quotes it. *)
Theorem fetch_too_large_reported_as_500 `{PyLib} (url : str)
    (extract_text follow_redirects : bool) (timeout : Z)
    (response : requests.Response) (before : list bytes) (chunk : bytes)
    (rest : requests.stream) :
  requests_get (fetch_request url follow_redirects timeout) = Ok response ->
  between 400 599 (requests.status_code response) = false ->
  requests.iter_content response
    = of_chunks before (requests.StreamChunk chunk rest) ->
  Z.of_nat (length (concat before)) <= max_size ->
  max_size < Z.of_nat (length (concat before ++ chunk)) ->
  fetch_url_content url extract_text follow_redirects timeout
  = Raise (HTTPException 500
             (lit "An internal error occurred: 413: Content too large (max 10MB)"))
  /\ http_status (fetch_url_content url extract_text follow_redirects timeout)
     = 500.
Proof.
  intros Hget Hstatus Hbody Hbefore Hchunk.
  assert (Hfetch :
    fetch_url_content url extract_text follow_redirects timeout
    = Raise (HTTPException 500
               (lit "An internal error occurred: 413: Content too large (max 10MB)"))).
  { apply (fetch_abort_caught _ _ _ _ response (concat before ++ chunk));
      [exact Hget | exact Hstatus |].
    rewrite Hbody.
    apply (read_chunks_overflow before [] chunk rest); assumption. }
  rewrite Hfetch. split; reflexivity.
Qed.

Lemma fetch_too_large_reported_as_500_witness :
  http_status
    (@fetch_url_content
       (Fixture.lib
          (Ok (requests.mkResponse 200 []
                 (requests.StreamChunk (Fixture.zeros (max_size + 1))
                    requests.StreamEnd)))
          Fixture.unreachable Fixture.plain_text)
       (lit "http://example.com/big") true true 30) = 500.
Proof.
  apply (@fetch_too_large_reported_as_500
           (Fixture.lib
              (Ok (requests.mkResponse 200 []
                     (requests.StreamChunk (Fixture.zeros (max_size + 1))
                        requests.StreamEnd)))
              Fixture.unreachable Fixture.plain_text)
           (lit "http://example.com/big") true true 30
           (requests.mkResponse 200 []
              (requests.StreamChunk (Fixture.zeros (max_size + 1))
                 requests.StreamEnd))
           [] (Fixture.zeros (max_size + 1)) requests.StreamEnd).
  - reflexivity.
  - reflexivity.
  - reflexivity.
  - rewrite concat_nil. unfold max_size.
    change (length (@nil byte)) with 0%nat. lia.
  - rewrite concat_nil, app_nil_l, length_zeros; unfold max_size; lia.
Defined.

Lemma try_except_ok_inv {A} (body : result A)
    (clauses : list (exceptions.cls * (exc -> result A))) (a : A) :
  (forall e a', dispatch e clauses <> Ok a') ->
  try_except body clauses = Ok a -> body = Ok a.
Proof.
  intros Hclauses. destruct body as [a0 | e]; cbn [try_except].
  - auto.
  - intros Hd. destruct (Hclauses e a Hd).
Qed.

(** A /fetch that returns went through every step of the try block. *)
Lemma fetch_ok_inv `{PyLib} (url : str) (extract_text follow_redirects : bool)
    (timeout : Z) (r : URLContentResponse.t) :
  fetch_url_content url extract_text follow_redirects timeout = Ok r ->
  exists response content text,
    requests_get (fetch_request url follow_redirects timeout) = Ok response
    /\ between 400 599 (requests.status_code response) = false
    /\ read_chunks [] (requests.iter_content response) = (content, Ok tt)
    /\ decode_content content = Ok text
    /\ process_content
         (lower (default [] (headers_get (requests.headers response)
                               (lit "content-type"))))
         extract_text text url
       = Ok (URLContentResponse.content r, URLContentResponse.title r,
             URLContentResponse.metadata r)
    /\ URLContentResponse.content_type r
       = lower (default [] (headers_get (requests.headers response)
                              (lit "content-type")))
    /\ URLContentResponse.status_code r = requests.status_code response
    /\ URLContentResponse.url r = url
    /\ URLContentResponse.word_count r
       = Z.of_nat (length (split_ws (URLContentResponse.content r))).
Proof.
  unfold fetch_url_content. cbv zeta.
  change (requests.mkRequest url _ timeout follow_redirects true)
    with (fetch_request url follow_redirects timeout).
  intros Hfetch. apply try_except_ok_inv in Hfetch.
  - destruct (requests_get (fetch_request url follow_redirects timeout))
      as [response |] eqn:Hget; [| discriminate].
    cbn [mbind result_bind bind] in Hfetch. unfold raise_for_status in Hfetch.
    destruct (between 400 599 (requests.status_code response)) eqn:Hstatus;
      [discriminate |].
    cbn [mbind result_bind bind] in Hfetch.
    destruct (read_chunks [] (requests.iter_content response))
      as [content [[] | e]] eqn:Hread; [| discriminate].
    cbn [mbind result_bind bind] in Hfetch.
    destruct (decode_content content) as [text |] eqn:Hdecode;
      [| discriminate].
    cbn [mbind result_bind bind] in Hfetch.
    destruct (process_content _ extract_text text url)
      as [[[text' title] metadata] |] eqn:Hprocess; [| discriminate].
    cbn [mbind result_bind bind] in Hfetch. injection Hfetch as <-.
    exists response, content, text.
    cbn [URLContentResponse.content URLContentResponse.title
         URLContentResponse.metadata URLContentResponse.content_type
         URLContentResponse.status_code URLContentResponse.url
         URLContentResponse.word_count].
    repeat split; assumption || reflexivity.
  - intros e a'. unfold dispatch.
    destruct (isinstance e exceptions.Timeout); [discriminate |].
    destruct (isinstance e exceptions.ConnectionError); [discriminate |].
    destruct (isinstance e exceptions.HTTPError).
    { destruct (response_status_code e); discriminate. }
    destruct (isinstance e exceptions.RequestException); [discriminate |].
    destruct (isinstance e exceptions.Exception); discriminate.
Qed.

(** C9. Every /fetch that returns gives a word_count equal to the number
    of pieces of content.split(), whichever branch (HTML extraction, JSON
    re-serialization, or neither) produced the content. *)
Theorem fetch_word_count `{PyLib} (url : str)
    (extract_text follow_redirects : bool) (timeout : Z)
    (r : URLContentResponse.t) :
  fetch_url_content url extract_text follow_redirects timeout = Ok r ->
  URLContentResponse.word_count r
  = Z.of_nat (length (split_ws (URLContentResponse.content r))).
Proof.
  intros Hfetch.
  destruct (fetch_ok_inv _ _ _ _ _ Hfetch)
    as (response & content & text & _ & _ & _ & _ & _ & _ & _ & _ & Hcount).
  exact Hcount.
Qed.

Lemma fetch_word_count_witness :
  exists r,
    @fetch_url_content
      (Fixture.lib
         (Fixture.respond 200 (lit "text/plain")
            [Fixture.body "one two "; Fixture.body " three"])
         Fixture.unreachable Fixture.plain_text)
      (lit "http://example.com/words") true true 30 = Ok r
    /\ URLContentResponse.content r = lit "one two  three"
    /\ URLContentResponse.word_count r = 3.
Proof.
  pose (r := URLContentResponse.mk (lit "http://example.com/words") None
               (lit "one two  three") (lit "text/plain") 200 3 ∅).
  assert (Hrun :
    @fetch_url_content
      (Fixture.lib
         (Fixture.respond 200 (lit "text/plain")
            [Fixture.body "one two "; Fixture.body " three"])
         Fixture.unreachable Fixture.plain_text)
      (lit "http://example.com/words") true true 30 = Ok r)
    by reflexivity.
  exists r. split; [exact Hrun |]. split; [reflexivity |].
  rewrite (@fetch_word_count _ _ _ _ _ r Hrun). reflexivity.
Defined.

(** ** The JSON branch of /fetch *)

(** C7 (as amended). When the content type contains application/json and
    the HTML branch is not taken (the content type has no text/html in it,
    or extract_text is false): a body on which json.loads raises
    JSONDecodeError is returned as the decoded text, unchanged, with no
    title and no metadata and without an error; a body that parses is
    returned as json.dumps(_, indent=2) of the parsed value, with the list
    json_keys in the metadata. *)
Theorem fetch_json_branch `{PyLib} (url : str)
    (extract_text follow_redirects : bool) (timeout : Z)
    (response : requests.Response) (content : bytes) (text : str) :
  let content_type :=
    lower (default [] (headers_get (requests.headers response)
                         (lit "content-type"))) in
  let respond text title metadata :=
    Ok (URLContentResponse.mk url title text content_type
          (requests.status_code response)
          (Z.of_nat (length (split_ws text))) metadata) in
  requests_get (fetch_request url follow_redirects timeout) = Ok response ->
  between 400 599 (requests.status_code response) = false ->
  read_chunks [] (requests.iter_content response) = (content, Ok tt) ->
  decode_content content = Ok text ->
  contains (lit "application/json") content_type = true ->
  contains (lit "text/html") content_type && extract_text = false ->
  (forall e, json_loads text = Raise e ->
             isinstance e exceptions.JSONDecodeError = true ->
             fetch_url_content url extract_text follow_redirects timeout
             = respond text None ∅)
  /\ (forall json_data, json_loads text = Ok json_data ->
        fetch_url_content url extract_text follow_redirects timeout
        = respond (json_dumps json_data) None
            (<[lit "json_keys" :=
                 MList (if is_dict json_data then keys json_data else [])]>
               ∅)).
Proof.
  intros content_type respond Hget Hstatus Hread Hdecode Hjson Hhtml.
  assert (Hrun : forall out,
    process_content content_type extract_text text url = Ok out ->
    fetch_url_content url extract_text follow_redirects timeout
    = respond out.1.1 out.1.2 out.2).
  { intros [[text' title] metadata] Hprocess.
    unfold fetch_url_content. cbv zeta.
    change (requests.mkRequest url _ timeout follow_redirects true)
      with (fetch_request url follow_redirects timeout).
    rewrite Hget. cbn [mbind result_bind bind].
    unfold raise_for_status. rewrite Hstatus. cbn [mbind result_bind bind].
    rewrite Hread. cbn [mbind result_bind bind]. rewrite Hdecode.
    cbn [mbind result_bind bind]. fold content_type. rewrite Hprocess.
    reflexivity. }
  split.
  - intros e Hloads Hinst. apply (Hrun (text, None, ∅)).
    unfold process_content. cbv zeta. rewrite Hhtml, Hjson, Hloads.
    cbn [mbind result_bind bind try_except dispatch]. rewrite Hinst.
    reflexivity.
  - intros json_data Hloads. apply (Hrun (json_dumps json_data, None, _)).
    unfold process_content. cbv zeta. rewrite Hhtml, Hjson, Hloads.
    reflexivity.
Qed.

Lemma fetch_json_branch_witness :
  (exists r,
     @fetch_url_content
       (Fixture.lib
          (Fixture.respond 200 (lit "Application/JSON") [Fixture.body "not  json"])
          Fixture.unreachable Fixture.plain_text)
       (lit "http://example.com/api") true true 30 = Ok r
     /\ URLContentResponse.content r = lit "not  json")
  /\ (exists r,
        @fetch_url_content
          (Fixture.lib
             (Fixture.respond 200 (lit "application/json") [Fixture.body "{}"])
             Fixture.unreachable Fixture.plain_text)
          (lit "http://example.com/api") true true 30 = Ok r
        /\ URLContentResponse.metadata r !! lit "json_keys" = Some (MList [])).
Proof.
  split.
  - eexists. split.
    + refine (proj1 (@fetch_json_branch
               (Fixture.lib
                  (Fixture.respond 200 (lit "Application/JSON")
                     [Fixture.body "not  json"])
                  Fixture.unreachable Fixture.plain_text)
               (lit "http://example.com/api") true true 30
               (requests.mkResponse 200
                  [(lit "Content-Type", lit "Application/JSON")]
                  (of_chunks [Fixture.body "not  json"] requests.StreamEnd))
               (Fixture.body "not  json") (lit "not  json")
               eq_refl eq_refl eq_refl eq_refl eq_refl eq_refl)
             (Exc exceptions.JSONDecodeError
                (lit "Expecting value: line 1 column 1 (char 0)") None)
             eq_refl eq_refl).
    + reflexivity.
  - eexists. split.
    + refine (proj2 (@fetch_json_branch
               (Fixture.lib
                  (Fixture.respond 200 (lit "application/json")
                     [Fixture.body "{}"])
                  Fixture.unreachable Fixture.plain_text)
               (lit "http://example.com/api") true true 30
               (requests.mkResponse 200
                  [(lit "Content-Type", lit "application/json")]
                  (of_chunks [Fixture.body "{}"] requests.StreamEnd))
               (Fixture.body "{}") (lit "{}")
               eq_refl eq_refl eq_refl eq_refl eq_refl eq_refl)
             (JDict []) eq_refl).
    + reflexivity.
Defined.

(** C7 as stated fails where the content type contains both text/html and
    application/json and extract_text is true: the HTML branch comes first,
    so a body that is not JSON is returned cleaned up, not unchanged. *)
Lemma fetch_json_unparsed_counterexample :
  exists r,
    contains (lit "application/json")
      (Fixture.ascii_lower (lit "application/json; text/html")) = true
    /\ decode_content (Fixture.body "a  b") = Ok (lit "a  b")
    /\ Fixture.loads_empty_object (lit "a  b")
       = Raise (Exc exceptions.JSONDecodeError
                  (lit "Expecting value: line 1 column 1 (char 0)") None)
    /\ @fetch_url_content
         (Fixture.lib
            (Fixture.respond 200 (lit "application/json; text/html")
               [Fixture.body "a  b"])
            Fixture.unreachable Fixture.plain_text)
         (lit "http://example.com/api") true true 30 = Ok r
    /\ URLContentResponse.content r = lit "a b"
    /\ URLContentResponse.content r <> lit "a  b".
Proof.
  eexists. split; [reflexivity |]. split; [reflexivity |].
  split; [reflexivity |]. split; [reflexivity |].
  split; [reflexivity | discriminate].
Qed.

(** ** The text clean-up *)
Section Text.
Implicit Types (s p q : str) (c : char).

Lemma list_ind2 {A} (P : list A -> Prop) :
  P [] -> (forall a, P [a]) ->
  (forall a b l, P l -> P (b :: l) -> P (a :: b :: l)) ->
  forall l, P l.
Proof.
  intros Hnil Hone Hstep.
  assert (Hboth : forall l, P l /\ forall a, P (a :: l)).
  { induction l as [| b l [IH1 IH2]]; split; auto. }
  intros l. apply Hboth.
Qed.

Lemma contains_2sp s : contains (lit "  ") s = has_2sp s.
Proof.
  change (lit "  ") with [32; 32].
  induction s as [| c s IH]; [reflexivity |].
  cbn [contains has_2sp]. rewrite IH.
  destruct s as [| c' s]; cbn [startswith has_2sp].
  - rewrite andb_false_r. reflexivity.
  - rewrite andb_true_r, (Z.eqb_sym 32 c), (Z.eqb_sym 32 c'). reflexivity.
Qed.

Lemma has_2sp_app p q :
  has_2sp (p ++ q) = false -> has_2sp p = false /\ has_2sp q = false.
Proof.
  induction p as [| c p IH]; [auto |].
  cbn [app has_2sp]. destruct p as [| c' p].
  - cbn [app]. destruct q as [| c' q]; [auto |].
    intros Hq. apply orb_false_elim in Hq. tauto.
  - cbn [app] in *. intros Hq. apply orb_false_elim in Hq.
    destruct Hq as [Hhd Htl]. destruct (IH Htl) as [Hp Hq].
    rewrite Hhd, Hp. auto.
Qed.


(** *** strip *)

Lemma lstrip_suffix s : exists pre, s = pre ++ lstrip s.
Proof.
  induction s as [| c s [pre IH]]; [exists []; reflexivity |].
  cbn [lstrip]. destruct (isspace c).
  - exists (c :: pre). cbn [app]. congruence.
  - exists []. reflexivity.
Qed.

Lemma lstrip_solid s : lstrip s = [] \/ starts_solid (lstrip s) = true.
Proof.
  induction s as [| c s IH]; [left; reflexivity |].
  cbn [lstrip]. destruct (isspace c) eqn:Hc; [exact IH |].
  right. cbn [starts_solid]. rewrite Hc. reflexivity.
Qed.

Lemma lstrip_id s : starts_solid s = true -> lstrip s = s.
Proof.
  destruct s as [| c s]; [reflexivity |]. cbn [starts_solid lstrip].
  destruct (isspace c); [discriminate | reflexivity].
Qed.

Lemma rev_rstrip s : rev (rstrip s) = lstrip (rev s).
Proof. unfold rstrip. apply rev_involutive. Qed.

Lemma rstrip_prefix s : exists post, s = rstrip s ++ post.
Proof.
  destruct (lstrip_suffix (rev s)) as [pre Hpre]. exists (rev pre).
  unfold rstrip. rewrite <- rev_app_distr, <- Hpre, rev_involutive.
  reflexivity.
Qed.

Lemma rstrip_id s : starts_solid (rev s) = true -> rstrip s = s.
Proof.
  intros Hs. unfold rstrip. rewrite lstrip_id by exact Hs.
  apply rev_involutive.
Qed.

Lemma starts_solid_app p q : p <> [] -> starts_solid (p ++ q) = starts_solid p.
Proof. destruct p; [congruence | reflexivity]. Qed.

Lemma strip_infix s : exists pre post, s = pre ++ strip s ++ post.
Proof.
  destruct (rstrip_prefix s) as [post Hpost].
  destruct (lstrip_suffix (rstrip s)) as [pre Hpre].
  exists pre, post. unfold strip. rewrite app_assoc, <- Hpre. exact Hpost.
Qed.

Lemma strip_solid s :
  strip s <> [] ->
  starts_solid (strip s) = true /\ starts_solid (rev (strip s)) = true.
Proof.
  unfold strip. intros Hne.
  destruct (lstrip_solid (rstrip s)) as [Hnil | Hhead]; [congruence |].
  split; [exact Hhead |].
  destruct (lstrip_suffix (rstrip s)) as [pre Hpre].
  destruct (lstrip_solid (rev s)) as [Hnil | Hlast].
  - unfold rstrip in Hne. rewrite Hnil in Hne. cbn in Hne. congruence.
  - rewrite <- rev_rstrip, Hpre, rev_app_distr in Hlast.
    rewrite starts_solid_app in Hlast; [exact Hlast |].
    intros Hrev. apply (f_equal (@rev Z)) in Hrev.
    rewrite rev_involutive in Hrev. cbn in Hrev. congruence.
Qed.

Lemma strip_id s :
  starts_solid s = true -> starts_solid (rev s) = true -> strip s = s.
Proof.
  intros Hhead Hlast. unfold strip. rewrite rstrip_id by exact Hlast.
  apply lstrip_id, Hhead.
Qed.

Lemma Forall_strip (P : char -> Prop) s : Forall P s -> Forall P (strip s).
Proof.
  destruct (strip_infix s) as (pre & post & Hs). intros Hall.
  rewrite Hs in Hall. apply Forall_app in Hall as [_ Hall].
  apply Forall_app in Hall as [Hall _]. exact Hall.
Qed.

Lemma has_2sp_strip s : has_2sp s = false -> has_2sp (strip s) = false.
Proof.
  destruct (strip_infix s) as (pre & post & Hs). intros Hno.
  rewrite Hs in Hno. apply has_2sp_app in Hno as [_ Hno].
  apply has_2sp_app in Hno as [Hno _]. exact Hno.
Qed.


(** *** splitlines and split("  ") *)

Lemma Forall_cons_hd (P : str -> Prop) c (ls : list str) :
  P [c] -> (forall l, P l -> P (c :: l)) ->
  Forall P ls -> Forall P (cons_hd c ls).
Proof.
  intros Hone Hcons Hall. destruct Hall as [| l ls Hl Hls]; cbn [cons_hd].
  - constructor; [exact Hone | constructor].
  - constructor; [apply Hcons, Hl | exact Hls].
Qed.

Lemma splitlines_no_breaks s : Forall no_breaks (splitlines s).
Proof.
  induction s as [| c | c c' s IH IH'] using list_ind2.
  - constructor.
  - cbn [splitlines]. destruct (is_linebreak c) eqn:Hc.
    + constructor; constructor.
    + cbn [cons_hd]. constructor; [| constructor].
      constructor; [exact Hc | constructor].
  - cbn [splitlines] in *. destruct (is_linebreak c) eqn:Hc.
    + constructor; [constructor |].
      destruct ((c =? 13) && (c' =? 10)); [exact IH | exact IH'].
    + apply Forall_cons_hd; [| | exact IH'].
      * constructor; [exact Hc | constructor].
      * intros l Hl. constructor; [exact Hc | exact Hl].
Qed.

Lemma splitlines_one_line s :
  no_breaks s -> splitlines s = match s with [] => [] | _ => [s] end.
Proof.
  induction 1 as [| c s Hc Hs IH]; [reflexivity |].
  cbn [splitlines]. rewrite Hc, IH. destruct s; reflexivity.
Qed.

Lemma split_2sp_pieces (P : char -> Prop) s :
  Forall P s ->
  Forall (fun p => has_2sp p = false /\ Forall P p) (split_2sp s).
Proof.
  induction s as [| c | c c' s IH IH'] using list_ind2; intros Hall.
  - repeat constructor.
  - constructor; [split; [reflexivity | exact Hall] | constructor].
  - assert (Hc : P c) by (inversion Hall; assumption).
    assert (Htl : Forall P (c' :: s)) by (inversion Hall; assumption).
    assert (Hs : Forall P s) by (inversion Htl; assumption).
    change (split_2sp (c :: c' :: s))
      with (if (c =? 32) && (c' =? 32) then [] :: split_2sp s
            else cons_hd c (split_2sp (c' :: s))).
    destruct ((c =? 32) && (c' =? 32)) eqn:Hsp.
    + constructor; [split; [reflexivity | constructor] | exact (IH Hs)].
    + specialize (IH' Htl).
      assert (Hfirst : match split_2sp (c' :: s) with
                       | p :: _ => p = [] \/ exists p', p = c' :: p'
                       | [] => True
                       end).
      { destruct s as [| c'' s];
          [cbn [split_2sp]; right; exists []; reflexivity |].
        change (split_2sp (c' :: c'' :: s))
          with (if (c' =? 32) && (c'' =? 32) then [] :: split_2sp s
                else cons_hd c' (split_2sp (c'' :: s))).
        destruct ((c' =? 32) && (c'' =? 32)); [left; reflexivity |].
        destruct (split_2sp (c'' :: s)); cbn [cons_hd]; right; eauto. }
      destruct (split_2sp (c' :: s)) as [| p ps]; cbn [cons_hd].
      * constructor; [| constructor]. split; [reflexivity |].
        constructor; [exact Hc | constructor].
      * inversion IH' as [| ? ? [Hp2 HpP] Hps]; subst.
        constructor; [| exact Hps]. split; [| constructor; assumption].
        destruct Hfirst as [-> | [p' ->]]; [reflexivity |].
        cbn [has_2sp] in *. rewrite Hsp. exact Hp2.
Qed.

Lemma split_2sp_one_piece s : has_2sp s = false -> split_2sp s = [s].
Proof.
  induction s as [| c s IH]; [reflexivity |].
  destruct s as [| c' s]; [reflexivity |].
  change (has_2sp (c :: c' :: s))
    with ((c =? 32) && (c' =? 32) || has_2sp (c' :: s)).
  change (split_2sp (c :: c' :: s))
    with (if (c =? 32) && (c' =? 32) then [] :: split_2sp s
          else cons_hd c (split_2sp (c' :: s))).
  intros Hno. apply orb_false_elim in Hno as [Hsp Htl].
  rewrite Hsp, (IH Htl). reflexivity.
Qed.

(** *** The clean-up *)

Lemma tidy_nonempty s : tidy s -> s <> [].
Proof. intros [Hhead _] ->. discriminate Hhead. Qed.

Lemma tidy_join_cons p q : tidy p -> tidy q -> tidy (p ++ 32 :: q).
Proof.
  intros (Hp1 & Hp2 & Hp3 & Hp4) (Hq1 & Hq2 & Hq3 & Hq4).
  assert (Hp : p <> []) by (intros ->; discriminate Hp1).
  assert (Hq : q <> []) by (intros ->; discriminate Hq1).
  repeat split.
  - rewrite starts_solid_app by exact Hp. exact Hp1.
  - rewrite rev_app_distr. cbn [rev]. rewrite <- app_assoc.
    rewrite starts_solid_app; [exact Hq2 |].
    intros Hrev. apply (f_equal (@rev Z)) in Hrev.
    rewrite rev_involutive in Hrev. cbn in Hrev. congruence.
  - apply Forall_app. split; [exact Hp3 |].
    constructor; [reflexivity | exact Hq3].
  - clear Hp1 Hp3 Hq2 Hq3.
    induction p as [| c p IH]; [congruence |].
    destruct p as [| c' p].
    + cbn [rev app starts_solid] in Hp2. cbn [app has_2sp].
      destruct q as [| c' q]; [congruence |].
      cbn [starts_solid] in Hq1.
      assert ((c =? 32) = false) as ->.
      { destruct (Z.eqb_spec c 32) as [-> |]; [discriminate Hp2 | reflexivity]. }
      assert ((c' =? 32) = false) as ->.
      { destruct (Z.eqb_spec c' 32) as [-> |]; [discriminate Hq1 | reflexivity]. }
      rewrite andb_false_r. exact Hq4.
    + change (has_2sp (c :: c' :: p))
        with ((c =? 32) && (c' =? 32) || has_2sp (c' :: p)) in Hp4.
      apply orb_false_elim in Hp4 as [Hsp Htl].
      change (has_2sp ((c :: c' :: p) ++ 32 :: q))
        with ((c =? 32) && (c' =? 32) || has_2sp ((c' :: p) ++ 32 :: q)).
      rewrite Hsp. apply IH; [| exact Htl | discriminate].
      cbn [rev] in Hp2 |- *. rewrite starts_solid_app in Hp2; [exact Hp2 |].
      destruct (rev p); discriminate.
Qed.

Lemma join_tidy (chunks : list str) :
  Forall tidy chunks -> chunks <> [] -> tidy (join (lit " ") chunks).
Proof.
  change (lit " ") with [32].
  induction 1 as [| p ps Hp Hps IH]; [congruence |]. intros _.
  destruct ps as [| q ps]; [exact Hp |].
  change (join [32] (p :: q :: ps)) with (p ++ 32 :: join [32] (q :: ps)).
  apply tidy_join_cons; [exact Hp | apply IH; discriminate].
Qed.

Lemma clean_up_tidy s : tidy s -> clean_up s = s.
Proof.
  intros (Hhead & Hlast & Hbreaks & Hsp). unfold clean_up.
  rewrite splitlines_one_line by exact Hbreaks.
  destruct s as [| c s]; [discriminate Hhead |].
  cbn [List.map flat_map]. rewrite app_nil_r.
  rewrite (strip_id _ Hhead Hlast), (split_2sp_one_piece _ Hsp).
  cbn [List.map]. rewrite (strip_id _ Hhead Hlast). reflexivity.
Qed.

(** The chunks the clean-up joins are tidy. *)
Lemma clean_up_chunks text :
  Forall tidy
    (List.filter truthy
       (flat_map (fun line => List.map strip (split_2sp line))
          (List.map strip (splitlines text)))).
Proof.
  apply List.Forall_forall. intros chunk Hin.
  apply filter_In in Hin as [Hin Hne].
  apply in_flat_map in Hin as (line & Hline & Hin).
  apply in_map_iff in Hin as (phrase & <- & Hphrase).
  apply in_map_iff in Hline as (raw & <- & Hraw).
  pose proof (splitlines_no_breaks text) as Hlines.
  rewrite List.Forall_forall in Hlines. specialize (Hlines raw Hraw).
  pose proof (split_2sp_pieces _ (strip raw) (Forall_strip _ _ Hlines))
    as Hpieces.
  rewrite List.Forall_forall in Hpieces.
  destruct (Hpieces phrase Hphrase) as [Hsp Hbreaks].
  destruct (strip_solid phrase) as [Hhead Hlast].
  { intros Hnil. rewrite Hnil in Hne. discriminate Hne. }
  repeat split; [exact Hhead | exact Hlast | |].
  - apply Forall_strip, Hbreaks.
  - apply has_2sp_strip, Hsp.
Qed.

Lemma clean_up_result text : clean_up text = [] \/ tidy (clean_up text).
Proof.
  unfold clean_up.
  destruct (List.filter truthy _) as [| chunk chunks] eqn:Hchunks;
    [left; reflexivity | right].
  apply join_tidy; [| discriminate].
  rewrite <- Hchunks. apply clean_up_chunks.
Qed.

Lemma clean_up_idempotent text : clean_up (clean_up text) = clean_up text.
Proof.
  destruct (clean_up_result text) as [-> | Htidy]; [reflexivity |].
  apply clean_up_tidy, Htidy.
Qed.

Lemma clean_up_no_2sp text : contains (lit "  ") (clean_up text) = false.
Proof.
  rewrite contains_2sp.
  destruct (clean_up_result text) as [-> | (_ & _ & _ & Hsp)];
    [reflexivity | exact Hsp].
Qed.

End Text.

(** ** The document tree *)

Section Soup.
Import bs4.
Implicit Types (n : node) (ns soup : list node) (p : node -> bool).

Lemma head_filter_first {A} (p : A -> bool) (l : list A) (x : A) :
  first_match p l x -> head (List.filter p l) = Some x.
Proof.
  intros (before & after & -> & Hbefore & Hx).
  induction before as [| y before IH]; cbn [app List.filter].
  - rewrite Hx. reflexivity.
  - cbn [forallb] in Hbefore. apply andb_prop in Hbefore as [Hy Hbefore].
    apply negb_true_iff in Hy. rewrite Hy. apply IH, Hbefore.
Qed.

Lemma filter_no_match {A} (p : A -> bool) (l : list A) :
  no_match p l -> List.filter p l = [].
Proof.
  unfold no_match. induction l as [| y l IH]; [reflexivity |].
  cbn [forallb List.filter]. intros Hl. apply andb_prop in Hl as [Hy Hl].
  apply negb_true_iff in Hy. rewrite Hy. apply IH, Hl.
Qed.

Lemma find_first p soup n :
  first_match p (descendants soup) n -> find p soup = Some n.
Proof. apply head_filter_first. Qed.

Lemma find_none p soup :
  no_match p (descendants soup) -> find p soup = None.
Proof. intros Hno. unfold find, find_all. rewrite filter_no_match; auto. Qed.

(** [find] returns a descendant that matches, and nothing only when no
    descendant matches. *)
Lemma find_some_inv p soup n :
  find p soup = Some n -> first_match p (descendants soup) n.
Proof.
  unfold find, find_all, first_match.
  induction (descendants soup) as [| y l IH]; [discriminate |].
  cbn [List.filter]. destruct (p y) eqn:Hy.
  - intros [= ->]. exists [], l. auto.
  - intros Hfind. destruct (IH Hfind) as (before & after & -> & Hb & Hn).
    exists (y :: before), after. cbn [forallb app]. rewrite Hy. auto.
Qed.

Lemma find_none_inv p soup :
  find p soup = None -> no_match p (descendants soup).
Proof.
  unfold find, find_all, no_match.
  induction (descendants soup) as [| y l IH]; [reflexivity |].
  cbn [List.filter forallb]. destruct (p y); [discriminate |]. exact IH.
Qed.

Lemma decompose_unfold p n :
  decompose p n
  = if p n then []
    else match n with
         | Tag nm attrs contents =>
             [Tag nm attrs (flat_map (decompose p) contents)]
         | _ => [n]
         end.
Proof. destruct n; reflexivity. Qed.

(** Script and style contents do not reach the tree that is searched. *)
Lemma decompose_same_outside :
  (forall n1 n2, same_outside n1 n2 ->
     decompose is_script_or_style n1 = decompose is_script_or_style n2)
  /\ (forall l1 l2, same_outside_list l1 l2 ->
        decompose_all is_script_or_style l1
        = decompose_all is_script_or_style l2).
Proof.
  apply same_outside_both.
  - reflexivity.
  - reflexivity.
  - intros n1 n2 H1 H2. rewrite !decompose_unfold, H1, H2. reflexivity.
  - intros name attrs cs1 cs2 _ IH. rewrite !decompose_unfold.
    unfold decompose_all in IH. rewrite IH. reflexivity.
  - reflexivity.
  - intros n1 n2 l1 l2 _ IHn _ IHl. unfold decompose_all in *.
    cbn [flat_map]. rewrite IHn, IHl. reflexivity.
Qed.

Lemma extract_same_outside (parsed1 parsed2 : bs4.soup) :
  same_outside_list parsed1 parsed2 ->
  extract_from_soup parsed1 = extract_from_soup parsed2.
Proof.
  intros Hsame. unfold extract_from_soup.
  rewrite (proj2 decompose_same_outside _ _ Hsame). reflexivity.
Qed.

End Soup.

(** C5. The content that the HTML extraction returns has no text of script
    or style elements in it (two documents that differ only inside such
    elements give the same result), has no two plain spaces in a row, and
    is a fixed point of the clean-up, which is idempotent.  This is the
    content of every /fetch reply for a text/html content type with
    extract_text set. *)
Theorem extracted_text_is_clean `{PyLib} :
  (forall raw, clean_up (clean_up raw) = clean_up raw)
  /\ (forall html_content url,
        let text := (extract_text_from_html html_content url).1.1 in
        contains (lit "  ") text = false /\ clean_up text = text)
  /\ (forall html_content other url,
        same_outside_list (BeautifulSoup html_content) (BeautifulSoup other) ->
        extract_text_from_html other url
        = extract_text_from_html html_content url)
  /\ (forall url extract_text follow_redirects timeout r,
        fetch_url_content url extract_text follow_redirects timeout = Ok r ->
        contains (lit "text/html") (URLContentResponse.content_type r)
          && extract_text = true ->
        (exists html_content,
           URLContentResponse.content r
           = (extract_text_from_html html_content url).1.1)
        /\ contains (lit "  ") (URLContentResponse.content r) = false
        /\ clean_up (URLContentResponse.content r)
           = URLContentResponse.content r).
Proof.
  assert (Hclean : forall html_content url,
            contains (lit "  ") (extract_text_from_html html_content url).1.1
            = false
            /\ clean_up (extract_text_from_html html_content url).1.1
               = (extract_text_from_html html_content url).1.1).
  { intros html_content url. unfold extract_text_from_html.
    assert (Htext : exists raw,
              (extract_from_soup (BeautifulSoup html_content)).1.1
              = clean_up raw) by (eexists; reflexivity).
    destruct Htext as [raw ->].
    split; [apply clean_up_no_2sp | apply clean_up_idempotent]. }
  split; [apply clean_up_idempotent |]. split; [exact Hclean |]. split.
  - intros html_content other url Hsame. unfold extract_text_from_html.
    symmetry. apply extract_same_outside, Hsame.
  - intros url extract_text follow_redirects timeout r Hfetch Hhtml.
    destruct (fetch_ok_inv _ _ _ _ _ Hfetch)
      as (response & content & text & _ & _ & _ & _ & Hprocess & Htype & _).
    rewrite Htype in Hhtml. unfold process_content in Hprocess.
    cbv zeta in Hprocess. rewrite Hhtml in Hprocess.
    pose proof (f_equal (fun out => match out with
                                    | Ok triple => triple.1.1
                                    | Raise _ => []
                                    end) Hprocess) as Hcontent.
    change ((extract_text_from_html text url).1.1
            = URLContentResponse.content r) in Hcontent.
    rewrite <- Hcontent. split; [exists text; reflexivity | apply Hclean].
Qed.

(** ** The class pattern *)

Section ClassPattern.
Implicit Types (w s t p q : str) (c : char).

Lemma startswith_iff w s : startswith w s = true <-> exists b, s = w ++ b.
Proof.
  revert s. induction w as [| x w IH]; intros s; cbn [startswith].
  - split; [exists s; reflexivity | reflexivity].
  - destruct s as [| y s].
    + split; [discriminate | intros [b Hb]; discriminate Hb].
    + rewrite andb_true_iff, Z.eqb_eq, IH. split.
      * intros [-> [b ->]]. exists b. reflexivity.
      * intros [b [= -> ->]]. eauto.
Qed.

Lemma contains_iff w s :
  contains w s = true <-> exists a b, s = a ++ w ++ b.
Proof.
  induction s as [| y s IH].
  - cbn [contains]. rewrite orb_false_r, startswith_iff. split.
    + intros [b Hb]. exists [], b. exact Hb.
    + intros (a & b & Hab). destruct a; [exists b; exact Hab | discriminate].
  - cbn [contains]. rewrite orb_true_iff, startswith_iff, IH. split.
    + intros [[b Hb] | (a & b & ->)].
      * exists [], b. exact Hb.
      * exists (y :: a), b. reflexivity.
    + intros (a & b & Hab). destruct a as [| x a].
      * left. exists b. exact Hab.
      * right. injection Hab as -> ->. eauto.
Qed.

Lemma contains_infix w t a b :
  contains w t = true -> contains w (a ++ t ++ b) = true.
Proof.
  rewrite !contains_iff. intros (a' & b' & ->).
  exists (a ++ a'), (b' ++ b). rewrite <- !app_assoc. reflexivity.
Qed.

(** A word is on one side of a character that is not in it. *)
Lemma contains_around w p c q :
  w <> [] -> ~ In c w ->
  contains w (p ++ c :: q) = true ->
  contains w p = true \/ contains w q = true.
Proof.
  intros Hw Hc. rewrite !contains_iff. intros (a & b & Hab).
  apply app_eq_app in Hab as [l [[-> Hrest] | [-> Hrest]]].
  - apply app_eq_app in Hrest as [l' [[-> Hq] | [-> _]]].
    + destruct l' as [| c' l'].
      * left. exists a, []. rewrite !app_nil_r. reflexivity.
      * injection Hq as <- _. destruct Hc. apply in_or_app. right. left.
        reflexivity.
    + left. exists a, l'. reflexivity.
  - destruct l as [| c' l].
    + destruct w as [| x w]; [congruence |]. injection Hrest as <- _.
      destruct Hc. left. reflexivity.
    + injection Hrest as _ ->. right. eauto.
Qed.

Lemma solid_not_in w c : solid w -> isspace c = true -> ~ In c w.
Proof.
  intros Hw Hc Hin. unfold solid in Hw. rewrite List.Forall_forall in Hw.
  specialize (Hw c Hin). congruence.
Qed.

(** Every piece of [s.split()] is a part of [s]. *)
Lemma split_ws_from_infix s : forall cur t,
  In t (split_ws_from cur s) -> exists a b, rev cur ++ s = a ++ t ++ b.
Proof.
  induction s as [| c s IH]; intros cur t; cbn [split_ws_from].
  - destruct (truthy cur); [| intros []]. intros [<- | []].
    exists [], []. rewrite !app_nil_r. reflexivity.
  - destruct (isspace c).
    + destruct (truthy cur).
      * intros [<- | Hin].
        -- exists [], (c :: s). reflexivity.
        -- destruct (IH [] t Hin) as (a & b & Hab). cbn [rev app] in Hab.
           exists (rev cur ++ c :: a), b. rewrite Hab, <- app_assoc.
           reflexivity.
      * intros Hin. destruct (IH [] t Hin) as (a & b & Hab).
        cbn [rev app] in Hab. exists (rev cur ++ c :: a), b.
        rewrite Hab, <- app_assoc. reflexivity.
    + intros Hin. destruct (IH (c :: cur) t Hin) as (a & b & Hab).
      cbn [rev] in Hab. rewrite <- app_assoc in Hab. exists a, b. exact Hab.
Qed.

(** A word without whitespace that occurs in [s] occurs in one piece. *)
Lemma split_ws_from_occurs w s : forall cur,
  w <> [] -> solid w ->
  contains w (rev cur ++ s) = true ->
  exists t, In t (split_ws_from cur s) /\ contains w t = true.
Proof.
  induction s as [| c s IH]; intros cur Hw Hsolid Hocc;
    cbn [split_ws_from].
  - rewrite app_nil_r in Hocc. destruct cur as [| x cur].
    + cbn [rev] in Hocc. apply contains_iff in Hocc as (a & b & Hab).
      destruct a; [destruct w; [congruence | discriminate] | discriminate].
    + cbn [truthy]. exists (rev (x :: cur)). split; [left; reflexivity | exact Hocc].
  - destruct (isspace c) eqn:Hc.
    + apply contains_around in Hocc as [Hcur | Hs];
        [| | exact Hw | exact (solid_not_in _ _ Hsolid Hc)].
      * destruct cur as [| x cur].
        -- cbn [rev] in Hcur. apply contains_iff in Hcur as (a & b & Hab).
           destruct a; [destruct w; [congruence | discriminate] | discriminate].
        -- cbn [truthy]. exists (rev (x :: cur)). split; [left; reflexivity | exact Hcur].
      * destruct (IH [] Hw Hsolid Hs) as (t & Hin & Ht).
        exists t. split; [| exact Ht].
        destruct (truthy cur); [right |]; exact Hin.
    + apply IH; [exact Hw | exact Hsolid |]. cbn [rev].
      rewrite <- app_assoc. exact Hocc.
Qed.

Lemma contains_join w (ts : list str) :
  w <> [] -> ~ In 32 w ->
  contains w (join (lit " ") ts) = true ->
  exists t, In t ts /\ contains w t = true.
Proof.
  change (lit " ") with [32]. intros Hw Hsp.
  induction ts as [| t ts IH]; cbn [join].
  - intros Hocc. apply contains_iff in Hocc as (a & b & Hab).
    destruct a; [destruct w; [congruence | discriminate] | discriminate].
  - destruct ts as [| t' ts].
    + intros Hocc. exists t. split; [left; reflexivity | exact Hocc].
    + cbn [app]. intros Hocc.
      apply contains_around in Hocc as [Ht | Hrest];
        [| | exact Hw | exact Hsp].
      * exists t. split; [left; reflexivity | exact Ht].
      * destruct (IH Hrest) as (t0 & Hin & Ht0). exists t0.
        split; [right; exact Hin | exact Ht0].
Qed.

(** On a word without whitespace, the match on the tokens of a class
    attribute is the substring test on the attribute's value. *)
Lemma matches_multi_word w v :
  w <> [] -> solid w ->
  bs4.matches_multi (contains w) v = true <-> contains w v = true.
Proof.
  intros Hw Hsolid. unfold bs4.matches_multi. cbv zeta.
  assert (Htoken : forall t, In t (split_ws v) -> contains w t = true ->
                             contains w v = true).
  { intros t Hin Ht. destruct (split_ws_from_infix v [] t Hin)
      as (a & b & Hab). cbn [rev app] in Hab. rewrite Hab.
    apply contains_infix, Ht. }
  rewrite orb_true_iff, existsb_exists. split.
  - intros [(t & Hin & Ht) | Hjoined]; [exact (Htoken t Hin Ht) |].
    apply contains_join in Hjoined as (t & Hin & Ht);
      [exact (Htoken t Hin Ht) | exact Hw |].
    apply solid_not_in; [exact Hsolid | reflexivity].
  - intros Hocc. left. apply (split_ws_from_occurs w v []); assumption.
Qed.

Lemma matches_multi_class_pattern v :
  bs4.matches_multi class_pattern v = class_pattern v.
Proof.
  apply eq_true_iff_eq.
  assert (Hsplit : forall p1 p2 p3 : str -> bool,
    bs4.matches_multi (fun s => p1 s || p2 s || p3 s) v = true <->
    bs4.matches_multi p1 v = true \/ bs4.matches_multi p2 v = true
    \/ bs4.matches_multi p3 v = true).
  { intros p1 p2 p3. unfold bs4.matches_multi. cbv zeta.
    rewrite !orb_true_iff, !existsb_exists. split.
    - intros [(t & Hin & Ht) | Hj].
      + rewrite !orb_true_iff in Ht. destruct Ht as [[H1 | H2] | H3]; eauto 7.
      + tauto.
    - intros [[(t & Hin & Ht) | Hj] | [[(t & Hin & Ht) | Hj]
                                     | [(t & Hin & Ht) | Hj]]];
        try (left; exists t; split; [exact Hin |];
             rewrite ?orb_true_iff; tauto);
        tauto. }
  unfold class_pattern at 1.
  rewrite (Hsplit (contains (lit "content")) (contains (lit "main"))
             (contains (lit "article"))).
  unfold class_pattern. rewrite !orb_true_iff.
  rewrite !matches_multi_word; [tauto | | | | | |];
    try discriminate; repeat constructor.
Qed.

Lemma named_iff (name : str) (n : bs4.node) :
  bs4.named name n = true <-> exists attrs contents, n = bs4.Tag name attrs contents.
Proof.
  destruct n as [text | text | nm attrs contents]; cbn [bs4.named].
  - split; [discriminate | intros (? & ? & [=])].
  - split; [discriminate | intros (? & ? & [=])].
  - unfold str_eqb. rewrite bool_decide_eq_true. split.
    + intros ->. eauto.
    + intros (? & ? & [= -> _ _]). reflexivity.
Qed.

(** The divs that [find('div', class_=...)] accepts: those whose class
    attribute has content, main or article in it. *)
Lemma is_main_div_iff (n : bs4.node) :
  is_main_div n = true <->
  exists attrs contents v,
    n = bs4.Tag (lit "div") attrs contents
    /\ bs4.attrs_get attrs (lit "class") = Some v
    /\ contains (lit "content") v || contains (lit "main") v
       || contains (lit "article") v = true.
Proof.
  unfold is_main_div. destruct n as [text | text | nm attrs contents];
    cbn [bs4.named_with].
  - split; [discriminate | intros (? & ? & ? & [=] & _)].
  - split; [discriminate | intros (? & ? & ? & [=] & _)].
  - unfold str_eqb. rewrite andb_true_iff, bool_decide_eq_true.
    fold (class_pattern). split.
    + intros [-> Hclass].
      destruct (bs4.attrs_get attrs (lit "class")) as [v |] eqn:Hv;
        [| discriminate].
      rewrite matches_multi_class_pattern in Hclass.
      exists attrs, contents, v. auto.
    + intros (attrs' & contents' & v & [= -> <- _] & Hv & Hclass).
      rewrite Hv, matches_multi_class_pattern. auto.
Qed.

End ClassPattern.

(** C6. The region whose text is returned is chosen in this order, on the
    document without its script and style elements: the first main
    element; with no main, the first article; with neither, the first div
    whose class matches content, main or article; with none of these, the
    body; with no body, the whole document.  An element matches by its tag
    name, and a div matches when its class attribute has one of the three
    words in it, in that case. *)
Theorem main_content_fallback_order (parsed : bs4.soup) :
  let soup := bs4.decompose_all is_script_or_style parsed in
  let nodes := bs4.descendants soup in
  let text := (extract_from_soup parsed).1.1 in
  (forall region,
     first_match (bs4.named (lit "main")) nodes region ->
     text = clean_up (bs4.get_text region))
  /\ (forall region,
        no_match (bs4.named (lit "main")) nodes ->
        first_match (bs4.named (lit "article")) nodes region ->
        text = clean_up (bs4.get_text region))
  /\ (forall region,
        no_match (bs4.named (lit "main")) nodes ->
        no_match (bs4.named (lit "article")) nodes ->
        first_match is_main_div nodes region ->
        text = clean_up (bs4.get_text region))
  /\ (forall region,
        no_match (bs4.named (lit "main")) nodes ->
        no_match (bs4.named (lit "article")) nodes ->
        no_match is_main_div nodes ->
        first_match (bs4.named (lit "body")) nodes region ->
        text = clean_up (bs4.get_text region))
  /\ (no_match (bs4.named (lit "main")) nodes ->
      no_match (bs4.named (lit "article")) nodes ->
      no_match is_main_div nodes ->
      no_match (bs4.named (lit "body")) nodes ->
      text = clean_up (bs4.soup_get_text soup))
  /\ (forall name n,
        bs4.named name n = true <->
        exists attrs contents, n = bs4.Tag name attrs contents)
  /\ (forall n,
        is_main_div n = true <->
        exists attrs contents v,
          n = bs4.Tag (lit "div") attrs contents
          /\ bs4.attrs_get attrs (lit "class") = Some v
          /\ contains (lit "content") v || contains (lit "main") v
             || contains (lit "article") v = true).
Proof.
  intros soup nodes text. subst text nodes. unfold extract_from_soup.
  fold soup. cbn [fst].
  split; [| split; [| split; [| split; [| split; [| split]]]]].
  - intros region Hmain. rewrite (find_first _ _ _ Hmain). reflexivity.
  - intros region Hmain Harticle.
    rewrite (find_none _ _ Hmain), (find_first _ _ _ Harticle). reflexivity.
  - intros region Hmain Harticle Hdiv.
    rewrite (find_none _ _ Hmain), (find_none _ _ Harticle),
      (find_first _ _ _ Hdiv). reflexivity.
  - intros region Hmain Harticle Hdiv Hbody.
    rewrite (find_none _ _ Hmain), (find_none _ _ Harticle),
      (find_none _ _ Hdiv), (find_first _ _ _ Hbody). reflexivity.
  - intros Hmain Harticle Hdiv Hbody.
    rewrite (find_none _ _ Hmain), (find_none _ _ Harticle),
      (find_none _ _ Hdiv), (find_none _ _ Hbody). reflexivity.
  - exact named_iff.
  - exact is_main_div_iff.
Qed.

(** ** Open Graph metadata *)

Section OpenGraph.
Import bs4.
Implicit Types (tag : node) (tags : list node).
Implicit Types (metadata : gmap str meta_value).

(** The key and value of the entry the loop body writes for [tag]. *)
Lemma og_step_spec metadata tag :
  og_step metadata tag
  = if truthy (remove_og (get tag (lit "property") []))
       && truthy (get tag (lit "content") [])
    then <[lit "og_" ++ remove_og (get tag (lit "property") []) :=
             MStr (get tag (lit "content") [])]> metadata
    else metadata.
Proof. reflexivity. Qed.

Lemma og_step_other metadata tag (key : str) :
  (remove_og (get tag (lit "property") []) = key ->
   get tag (lit "content") [] = []) ->
  og_step metadata tag !! (lit "og_" ++ key) = metadata !! (lit "og_" ++ key).
Proof.
  intros Hother. rewrite og_step_spec.
  destruct (truthy (remove_og _)) eqn:Hname; [| reflexivity].
  destruct (truthy (get tag (lit "content") [])) eqn:Hcontent;
    [| reflexivity].
  cbn [andb]. apply lookup_insert_ne. intros Hkey.
  apply app_inv_head in Hkey. rewrite (Hother Hkey) in Hcontent.
  discriminate Hcontent.
Qed.

Lemma og_loop_other tags : forall metadata (key : str),
  (forall tag, In tag tags ->
     remove_og (get tag (lit "property") []) = key ->
     get tag (lit "content") [] = []) ->
  fold_left og_step tags metadata !! (lit "og_" ++ key)
  = metadata !! (lit "og_" ++ key).
Proof.
  induction tags as [| tag tags IH]; intros metadata key Hother;
    [reflexivity |].
  cbn [fold_left]. rewrite IH.
  - apply og_step_other. intros Hkey. apply (Hother tag); [left |]; auto.
  - intros tag' Hin. apply Hother. right. exact Hin.
Qed.

Lemma remove_og_none (s : str) :
  contains (lit "og:") s = false -> remove_og s = s.
Proof.
  change (lit "og:") with [111; 103; 58].
  induction s as [| c s IH]; [reflexivity |].
  cbn [contains]. intros Hno. apply orb_false_elim in Hno as [Hhere Hlater].
  specialize (IH Hlater).
  destruct s as [| c1 [| c2 s]]; [reflexivity | cbn [remove_og] in *; congruence |].
  change (remove_og (c :: c1 :: c2 :: s))
    with (if (c =? 111) && (c1 =? 103) && (c2 =? 58) then remove_og s
          else c :: remove_og (c1 :: c2 :: s)).
  cbn [startswith] in Hhere.
  rewrite andb_true_r, (Z.eqb_sym 111), (Z.eqb_sym 103), (Z.eqb_sym 58),
    andb_assoc in Hhere.
  rewrite Hhere, IH. reflexivity.
Qed.

Lemma remove_og_prefix (suffix : str) :
  contains (lit "og:") suffix = false ->
  remove_og (lit "og:" ++ suffix) = suffix.
Proof.
  intros Hno.
  change (remove_og (lit "og:" ++ suffix)) with (remove_og suffix).
  apply remove_og_none, Hno.
Qed.

End OpenGraph.

(** C8 (as amended). A meta tag whose property is "og:" followed by a
    non-empty suffix with no further "og:" in it, and whose content is not
    empty, is in the metadata under og_<suffix> with its content, provided
    no later og: tag with the same key and a non-empty content replaces
    it. *)
Theorem og_tag_captured (parsed : bs4.soup) (before after : list bs4.node)
    (tag : bs4.node) (suffix content : str) :
  let soup := bs4.decompose_all is_script_or_style parsed in
  bs4.descendants soup = before ++ tag :: after ->
  is_og_meta tag = true ->
  bs4.get tag (lit "property") [] = lit "og:" ++ suffix ->
  contains (lit "og:") suffix = false ->
  suffix <> [] ->
  bs4.get tag (lit "content") [] = content ->
  content <> [] ->
  (forall later, In later after -> is_og_meta later = true ->
     remove_og (bs4.get later (lit "property") []) = suffix ->
     bs4.get later (lit "content") [] = []) ->
  (extract_from_soup parsed).2 !! (lit "og_" ++ suffix) = Some (MStr content).
Proof.
  intros soup Hdoc Hmeta Hproperty Hsuffix Hne Hcontent Hcontent_ne Hlater.
  unfold extract_from_soup. fold soup. cbn [snd].
  unfold bs4.find_all. rewrite Hdoc, List.filter_app. cbn [List.filter].
  rewrite Hmeta, fold_left_app. cbn [fold_left].
  rewrite og_loop_other.
  - rewrite og_step_spec, Hproperty, (remove_og_prefix _ Hsuffix), Hcontent.
    destruct suffix; [congruence |]. destruct content; [congruence |].
    cbn [truthy andb]. apply lookup_insert_eq.
  - intros later Hin. apply filter_In in Hin as [Hin Hog].
    apply Hlater; assumption.
Qed.

(** ** Examples on documents *)

Lemma extracted_text_is_clean_witness :
  @extract_text_from_html
    (Fixture.lib Fixture.unreachable Fixture.unreachable Fixture.parse)
    Fixture.src_b (lit "http://example.com/")
  = (lit "Hi there", None, ∅).
Proof.
  rewrite (proj1 (proj2 (proj2
             (@extracted_text_is_clean
                (Fixture.lib Fixture.unreachable Fixture.unreachable
                   Fixture.parse))))
             Fixture.src_a Fixture.src_b).
  - reflexivity.
  - apply same_cons.
    + apply same_tag, same_cons; [apply same_string | apply same_nil].
    + apply same_cons; [apply same_removed; reflexivity | apply same_nil].
Defined.

Lemma main_content_fallback_order_witness :
  (extract_from_soup Fixture.page_main).1.1 = lit "Hello World"
  /\ (extract_from_soup Fixture.page_article).1.1 = lit "An article"
  /\ (extract_from_soup Fixture.page_div).1.1 = lit "In the div"
  /\ (extract_from_soup Fixture.page_body).1.1 = lit "In the body"
  /\ (extract_from_soup Fixture.page_bare).1.1 = lit "No body at all".
Proof.
  split; [| split; [| split; [| split]]].
  - rewrite (proj1 (main_content_fallback_order Fixture.page_main)
               (Fixture.el "main" [] [Fixture.txt "  Hello   World  "])).
    + reflexivity.
    + apply find_some_inv. reflexivity.
  - rewrite (proj1 (proj2 (main_content_fallback_order Fixture.page_article))
               (Fixture.el "article" [] [Fixture.txt "An article"])).
    + reflexivity.
    + reflexivity.
    + apply find_some_inv. reflexivity.
  - rewrite (proj1 (proj2 (proj2
               (main_content_fallback_order Fixture.page_div)))
               (Fixture.el "div" [Fixture.attr "class" "box my-content"]
                  [Fixture.txt "In the div"])).
    + reflexivity.
    + reflexivity.
    + reflexivity.
    + apply find_some_inv. reflexivity.
  - rewrite (proj1 (proj2 (proj2 (proj2
               (main_content_fallback_order Fixture.page_body))))
               (Fixture.el "body" []
                  [Fixture.el "p" [] [Fixture.txt "In the body"]])).
    + reflexivity.
    + reflexivity.
    + reflexivity.
    + reflexivity.
    + apply find_some_inv. reflexivity.
  - rewrite (proj1 (proj2 (proj2 (proj2 (proj2
               (main_content_fallback_order Fixture.page_bare)))))).
    + reflexivity.
    + reflexivity.
    + reflexivity.
    + reflexivity.
    + reflexivity.
Defined.

Lemma og_tag_captured_witness :
  (extract_from_soup Fixture.page_og).2 !! lit "og_title"
  = Some (MStr (lit "Hello")).
Proof.
  apply (og_tag_captured Fixture.page_og []
           [Fixture.el "meta"
              [Fixture.attr "property" "og:image"; Fixture.attr "content" ""]
              [];
            Fixture.el "meta" [Fixture.attr "property" "og:title"] []]
           (Fixture.el "meta"
              [Fixture.attr "property" "og:title";
               Fixture.attr "content" "Hello"] [])
           (lit "title") (lit "Hello")).
  - reflexivity.
  - reflexivity.
  - reflexivity.
  - reflexivity.
  - discriminate.
  - reflexivity.
  - discriminate.
  - intros later [<- | [<- | []]] _ Hkey; [discriminate Hkey | reflexivity].
Defined.

(** C8 as stated fails on a tag with an empty content (the loop skips it)
    and on a tag that a later one with the same property replaces. *)
Lemma og_tag_counterexample :
  (is_og_meta
     (Fixture.el "meta"
        [Fixture.attr "property" "og:image"; Fixture.attr "content" ""] [])
   = true
   /\ In (Fixture.el "meta"
            [Fixture.attr "property" "og:image"; Fixture.attr "content" ""] [])
        (bs4.descendants
           (bs4.decompose_all is_script_or_style Fixture.page_og))
   /\ (extract_from_soup Fixture.page_og).2 !! lit "og_image" = None)
  /\ (is_og_meta
        (Fixture.el "meta"
           [Fixture.attr "property" "og:image";
            Fixture.attr "content" "a.png"] [])
      = true
      /\ In (Fixture.el "meta"
               [Fixture.attr "property" "og:image";
                Fixture.attr "content" "a.png"] [])
           (bs4.descendants
              (bs4.decompose_all is_script_or_style Fixture.page_og_twice))
      /\ (extract_from_soup Fixture.page_og_twice).2 !! lit "og_image"
         = Some (MStr (lit "b.png"))
      /\ (extract_from_soup Fixture.page_og_twice).2 !! lit "og_image"
         <> Some (MStr (lit "a.png"))).
Proof.
  split.
  - split; [reflexivity |]. split; [right; left; reflexivity | reflexivity].
  - split; [reflexivity |]. split; [left; reflexivity |].
    split; [reflexivity | discriminate].
Qed.

(** The replace removes every "og:", not the prefix alone. *)
Lemma remove_og_inner :
  remove_og (lit "og:blog:title") = lit "bltitle".
Proof. reflexivity. Qed.

(** * Further properties *)

(** ** The error mapping of the handlers *)

Ltac by_class e :=
  destruct e as [[] ? [] | ? ?]; reflexivity.

(** X1. An exception raised by the GET request leaves /fetch as the
    HTTPException of its category: 408 for Timeout and its subclasses
    (ConnectTimeout too, although it is also a ConnectionError), 503 for
    the other ConnectionErrors, the upstream status for an HTTPError, 500
    "Request error" for the other requests exceptions and 500 "An internal
    error occurred" for anything else. *)
Theorem fetch_request_failure `{PyLib} (url : str)
    (extract_text follow_redirects : bool) (timeout : Z) (e : exc) :
  requests_get (fetch_request url follow_redirects timeout) = Raise e ->
  fetch_url_content url extract_text follow_redirects timeout
  = Raise (fetch_reports e).
Proof.
  intros Hget. unfold fetch_url_content. cbv zeta.
  change (requests.mkRequest url _ timeout follow_redirects true)
    with (fetch_request url follow_redirects timeout).
  rewrite Hget. cbn [mbind result_bind bind try_except]. by_class e.
Qed.

Lemma fetch_request_failure_witness :
  @fetch_url_content
    (Fixture.lib
       (Raise (Exc exceptions.ConnectTimeout (lit "timed out") None))
       Fixture.unreachable Fixture.plain_text)
    (lit "http://example.com/") true true 30
  = Raise (HTTPException 408 (lit "Request timeout")).
Proof.
  apply (@fetch_request_failure
           (Fixture.lib
              (Raise (Exc exceptions.ConnectTimeout (lit "timed out") None))
              Fixture.unreachable Fixture.plain_text)
           (lit "http://example.com/") true true 30
           (Exc exceptions.ConnectTimeout (lit "timed out") None)).
  reflexivity.
Defined.

(** X2. An upstream status from 400 to 599 is passed on: /fetch raises an
    HTTPException with that status and the detail "HTTP error: " followed
    by the message of raise_for_status, whatever the body is (it is not
    read). *)
Theorem fetch_upstream_status_passthrough `{PyLib} (url : str)
    (extract_text follow_redirects : bool) (timeout : Z)
    (response : requests.Response) :
  requests_get (fetch_request url follow_redirects timeout) = Ok response ->
  between 400 599 (requests.status_code response) = true ->
  fetch_url_content url extract_text follow_redirects timeout
  = Raise (HTTPException (requests.status_code response)
             (lit "HTTP error: " ++ http_error_msg response)).
Proof.
  intros Hget Hstatus. unfold fetch_url_content. cbv zeta.
  change (requests.mkRequest url _ timeout follow_redirects true)
    with (fetch_request url follow_redirects timeout).
  rewrite Hget. cbn [mbind result_bind bind]. unfold raise_for_status.
  rewrite Hstatus. reflexivity.
Qed.

Lemma fetch_upstream_status_passthrough_witness :
  @fetch_url_content
    (Fixture.lib
       (Fixture.respond 404 (lit "text/html") [Fixture.body "not found"])
       Fixture.unreachable Fixture.plain_text)
    (lit "http://example.com/missing") true true 30
  = Raise (HTTPException 404 (lit "HTTP error: 404 Error")).
Proof.
  apply (@fetch_upstream_status_passthrough
           (Fixture.lib
              (Fixture.respond 404 (lit "text/html")
                 [Fixture.body "not found"])
              Fixture.unreachable Fixture.plain_text)
           (lit "http://example.com/missing") true true 30
           (requests.mkResponse 404 [(lit "Content-Type", lit "text/html")]
              (of_chunks [Fixture.body "not found"] requests.StreamEnd)));
    reflexivity.
Defined.

(** X3. A transfer that breaks while the body is read, before the size
    cap is passed, is reported like a failed request, by the category of
    the exception the stream raises. *)
Theorem fetch_stream_failure `{PyLib} (url : str)
    (extract_text follow_redirects : bool) (timeout : Z)
    (response : requests.Response) (before : list bytes) (e : exc) :
  requests_get (fetch_request url follow_redirects timeout) = Ok response ->
  between 400 599 (requests.status_code response) = false ->
  requests.iter_content response
    = of_chunks before (requests.StreamError e) ->
  Z.of_nat (length (concat before)) <= max_size ->
  fetch_url_content url extract_text follow_redirects timeout
  = Raise (fetch_reports e).
Proof.
  intros Hget Hstatus Hbody Hsize. unfold fetch_url_content. cbv zeta.
  change (requests.mkRequest url _ timeout follow_redirects true)
    with (fetch_request url follow_redirects timeout).
  rewrite Hget. cbn [mbind result_bind bind]. unfold raise_for_status.
  rewrite Hstatus. cbn [mbind result_bind bind].
  rewrite Hbody, (read_chunks_within before [] (requests.StreamError e))
    by exact Hsize.
  cbn [read_chunks mbind result_bind bind try_except]. by_class e.
Qed.

Lemma fetch_stream_failure_witness :
  @fetch_url_content
    (Fixture.lib
       (Ok (requests.mkResponse 200 []
              (of_chunks [Fixture.body "partial"]
                 (requests.StreamError
                    (Exc exceptions.ChunkedEncodingError
                       (lit "Connection broken") None)))))
       Fixture.unreachable Fixture.plain_text)
    (lit "http://example.com/") true true 30
  = Raise (HTTPException 500 (lit "Request error: Connection broken")).
Proof.
  apply (@fetch_stream_failure
           (Fixture.lib
              (Ok (requests.mkResponse 200 []
                     (of_chunks [Fixture.body "partial"]
                        (requests.StreamError
                           (Exc exceptions.ChunkedEncodingError
                              (lit "Connection broken") None)))))
              Fixture.unreachable Fixture.plain_text)
           (lit "http://example.com/") true true 30
           (requests.mkResponse 200 []
              (of_chunks [Fixture.body "partial"]
                 (requests.StreamError
                    (Exc exceptions.ChunkedEncodingError
                       (lit "Connection broken") None))))
           [Fixture.body "partial"]
           (Exc exceptions.ChunkedEncodingError
              (lit "Connection broken") None)).
  - reflexivity.
  - reflexivity.
  - reflexivity.
  - unfold max_size. cbn. lia.
Defined.

(** X4. In the JSON branch only JSONDecodeError is swallowed: any other
    exception of json.loads leaves /fetch as the error of its category
    (500 "An internal error occurred" for a RecursionError, say). *)
Theorem fetch_json_other_exception `{PyLib} (url : str)
    (extract_text follow_redirects : bool) (timeout : Z)
    (response : requests.Response) (content : bytes) (text : str) (e : exc) :
  let content_type :=
    lower (default [] (headers_get (requests.headers response)
                         (lit "content-type"))) in
  requests_get (fetch_request url follow_redirects timeout) = Ok response ->
  between 400 599 (requests.status_code response) = false ->
  read_chunks [] (requests.iter_content response) = (content, Ok tt) ->
  decode_content content = Ok text ->
  contains (lit "text/html") content_type && extract_text = false ->
  contains (lit "application/json") content_type = true ->
  json_loads text = Raise e ->
  isinstance e exceptions.JSONDecodeError = false ->
  fetch_url_content url extract_text follow_redirects timeout
  = Raise (fetch_reports e).
Proof.
  intros content_type Hget Hstatus Hread Hdecode Hhtml Hjson Hloads Hinst.
  unfold fetch_url_content. cbv zeta.
  change (requests.mkRequest url _ timeout follow_redirects true)
    with (fetch_request url follow_redirects timeout).
  rewrite Hget. cbn [mbind result_bind bind]. unfold raise_for_status.
  rewrite Hstatus. cbn [mbind result_bind bind]. rewrite Hread.
  cbn [mbind result_bind bind]. rewrite Hdecode.
  cbn [mbind result_bind bind]. fold content_type.
  unfold process_content. cbv zeta. rewrite Hhtml, Hjson, Hloads.
  cbn [mbind result_bind bind try_except dispatch]. rewrite Hinst.
  cbn [mbind result_bind bind try_except]. by_class e.
Qed.

(** X5. An exception raised by the HEAD request is answered by /analyze
    with the result of its category: no status_code except for an
    HTTPError, and the message "Request timeout" (for ConnectTimeout too),
    "Unable to connect to the URL", "HTTP error: ...", "Request error: ..."
    or "An internal error occurred: ...". *)
Theorem analyze_request_failure `{PyLib} (url : str) (timeout : Z) (e : exc) :
  requests_head (analyze_request url timeout) = Raise e ->
  analyze_url url timeout = analyze_reports url e.
Proof.
  intros Hhead. unfold analyze_url. cbv zeta.
  change (requests.mkRequest url _ timeout true false)
    with (analyze_request url timeout).
  rewrite Hhead. cbn [mbind result_bind bind try_except]. by_class e.
Qed.

Lemma analyze_request_failure_witness :
  @analyze_url
    (Fixture.lib Fixture.unreachable
       (Raise (Exc exceptions.TooManyRedirects
                 (lit "Exceeded 30 redirects.") (Some 302)))
       Fixture.plain_text)
    (lit "http://example.com/loop") 10
  = Ok (URLAnalysisResponse.mk (lit "http://example.com/loop") false None None
          None (Some (lit "Request error: Exceeded 30 redirects."))).
Proof.
  apply (@analyze_request_failure
           (Fixture.lib Fixture.unreachable
              (Raise (Exc exceptions.TooManyRedirects
                        (lit "Exceeded 30 redirects.") (Some 302)))
              Fixture.plain_text)
           (lit "http://example.com/loop") 10
           (Exc exceptions.TooManyRedirects
              (lit "Exceeded 30 redirects.") (Some 302))).
  reflexivity.
Defined.

Lemma fetch_json_other_exception_witness :
  @fetch_url_content
    (with_json_loads
       (Fixture.lib
          (Fixture.respond 200 (lit "application/json") [Fixture.body "[[[["])
          Fixture.unreachable Fixture.plain_text)
       (fun _ => Raise (Exc exceptions.RecursionError
                          (lit "maximum recursion depth exceeded") None)))
    (lit "http://example.com/deep") true true 30
  = Raise (HTTPException 500
             (lit "An internal error occurred: maximum recursion depth exceeded")).
Proof.
  apply (@fetch_json_other_exception
           (with_json_loads
              (Fixture.lib
                 (Fixture.respond 200 (lit "application/json")
                    [Fixture.body "[[[["])
                 Fixture.unreachable Fixture.plain_text)
              (fun _ => Raise (Exc exceptions.RecursionError
                                 (lit "maximum recursion depth exceeded")
                                 None)))
           (lit "http://example.com/deep") true true 30
           (requests.mkResponse 200
              [(lit "Content-Type", lit "application/json")]
              (of_chunks [Fixture.body "[[[["] requests.StreamEnd))
           (Fixture.body "[[[[") (lit "[[[[")
           (Exc exceptions.RecursionError
              (lit "maximum recursion depth exceeded") None));
    reflexivity.
Defined.



(** ** What a reply of /fetch stands for *)

(** A loop that ends normally has read every chunk of a stream that ended,
    and has stayed within the cap. *)
Lemma read_chunks_ok_inv (s : requests.stream) : forall content c,
  read_chunks content s = (c, Ok tt) ->
  stream_complete s = true
  /\ c = content ++ concat (stream_chunks s)
  /\ (Z.of_nat (length content) <= max_size ->
      Z.of_nat (length c) <= max_size).
Proof.
  induction s as [| chunk rest IH | e]; intros content c Hrun.
  - cbn [read_chunks] in Hrun. injection Hrun as <-.
    cbn [stream_complete stream_chunks concat]. rewrite app_nil_r. auto.
  - rewrite read_chunks_step in Hrun.
    destruct (Z.gtb_spec (Z.of_nat (length (content ++ chunk))) max_size)
      as [Hgt | Hle]; [discriminate Hrun |].
    destruct (IH _ _ Hrun) as (Hcomplete & -> & Hcap).
    cbn [stream_complete stream_chunks concat]. rewrite app_assoc. auto.
  - cbn [read_chunks] in Hrun. discriminate Hrun.
Qed.

(** X7. Every reply of /fetch comes from an upstream answer with a status
    outside 400..599 whose body arrived whole and holds at most 10 MiB;
    the reply carries that status, the lower-cased content-type header
    and the URL asked for. *)
Theorem fetch_reply_origin `{PyLib} (url : str)
    (extract_text follow_redirects : bool) (timeout : Z)
    (r : URLContentResponse.t) :
  fetch_url_content url extract_text follow_redirects timeout = Ok r ->
  exists response,
    requests_get (fetch_request url follow_redirects timeout) = Ok response
    /\ between 400 599 (requests.status_code response) = false
    /\ URLContentResponse.status_code r = requests.status_code response
    /\ stream_complete (requests.iter_content response) = true
    /\ Z.of_nat (length (concat (stream_chunks
                                   (requests.iter_content response))))
       <= max_size
    /\ URLContentResponse.url r = url
    /\ URLContentResponse.content_type r
       = lower (default [] (headers_get (requests.headers response)
                              (lit "content-type"))).
Proof.
  intros Hfetch.
  destruct (fetch_ok_inv _ _ _ _ _ Hfetch)
    as (response & content & text & Hget & Hstatus & Hread & _ & _ & Htype
        & Hcode & Hurl & _).
  destruct (read_chunks_ok_inv _ _ _ Hread) as (Hcomplete & -> & Hcap).
  exists response. repeat split; try assumption.
  apply Hcap. unfold max_size. cbn [length]. lia.
Qed.

Lemma fetch_reply_origin_witness :
  exists response,
    Fixture.respond 302 (lit "text/plain") [Fixture.body "moved"]
    = Ok response
    /\ between 400 599 (requests.status_code response) = false
    /\ 302 = requests.status_code response
    /\ stream_complete (requests.iter_content response) = true
    /\ Z.of_nat (length (concat (stream_chunks
                                   (requests.iter_content response))))
       <= max_size
    /\ lit "http://example.com/old" = lit "http://example.com/old"
    /\ lit "text/plain"
       = Fixture.ascii_lower
           (default [] (@headers_get
                          (Fixture.lib
                             (Fixture.respond 302 (lit "text/plain")
                                [Fixture.body "moved"])
                             Fixture.unreachable Fixture.plain_text)
                          (requests.headers response) (lit "content-type"))).
Proof.
  apply (@fetch_reply_origin
           (Fixture.lib
              (Fixture.respond 302 (lit "text/plain") [Fixture.body "moved"])
              Fixture.unreachable Fixture.plain_text)
           (lit "http://example.com/old") true false 30
           (URLContentResponse.mk (lit "http://example.com/old") None
              (lit "moved") (lit "text/plain") 302 1 ∅)).
  reflexivity.
Defined.

(** X8. A body whose content type selects neither branch (no
    application/json in it, and no text/html or extract_text unset) is
    returned verbatim: the content is the UTF-8 text of the bytes, or their
    Latin-1 text when they are not valid UTF-8, with no title and no
    metadata.  In particular HTML is returned as markup when extract_text
    is false. *)
Theorem fetch_verbatim `{PyLib} (url : str)
    (extract_text follow_redirects : bool) (timeout : Z)
    (response : requests.Response) (chunks : list bytes) :
  let content_type :=
    lower (default [] (headers_get (requests.headers response)
                         (lit "content-type"))) in
  let text :=
    default (List.map byte_val (concat chunks)) (utf8_decode (concat chunks)) in
  requests_get (fetch_request url follow_redirects timeout) = Ok response ->
  between 400 599 (requests.status_code response) = false ->
  requests.iter_content response = of_chunks chunks requests.StreamEnd ->
  Z.of_nat (length (concat chunks)) <= max_size ->
  contains (lit "text/html") content_type && extract_text = false ->
  contains (lit "application/json") content_type = false ->
  fetch_url_content url extract_text follow_redirects timeout
  = Ok (URLContentResponse.mk url None text content_type
          (requests.status_code response)
          (Z.of_nat (length (split_ws text))) ∅).
Proof.
  intros content_type text Hget Hstatus Hbody Hsize Hhtml Hjson.
  unfold fetch_url_content. cbv zeta.
  change (requests.mkRequest url _ timeout follow_redirects true)
    with (fetch_request url follow_redirects timeout).
  rewrite Hget. cbn [mbind result_bind bind]. unfold raise_for_status.
  rewrite Hstatus. cbn [mbind result_bind bind].
  rewrite Hbody, (read_chunks_within chunks [] requests.StreamEnd)
    by exact Hsize.
  cbn [read_chunks app mbind result_bind bind].
  rewrite decode_content_cases. cbn [mbind result_bind bind].
  fold content_type. unfold process_content. cbv zeta.
  rewrite Hhtml, Hjson. reflexivity.
Qed.

Lemma fetch_verbatim_witness :
  @fetch_url_content
    (Fixture.lib
       (Fixture.respond 200 (lit "Text/HTML")
          [Fixture.body "<p>Hi</p>"; [xff]])
       Fixture.unreachable Fixture.plain_text)
    (lit "http://example.com/") false true 30
  = Ok (URLContentResponse.mk (lit "http://example.com/") None
          (lit "<p>Hi</p>" ++ [255]) (lit "text/html") 200 1 ∅).
Proof.
  apply (@fetch_verbatim
           (Fixture.lib
              (Fixture.respond 200 (lit "Text/HTML")
                 [Fixture.body "<p>Hi</p>"; [xff]])
              Fixture.unreachable Fixture.plain_text)
           (lit "http://example.com/") false true 30
           (requests.mkResponse 200 [(lit "Content-Type", lit "Text/HTML")]
              (of_chunks [Fixture.body "<p>Hi</p>"; [xff]]
                 requests.StreamEnd))
           [Fixture.body "<p>Hi</p>"; [xff]]).
  - reflexivity.
  - reflexivity.
  - reflexivity.
  - unfold max_size. cbn. lia.
  - reflexivity.
  - reflexivity.
Defined.

(** ** The clean-up keeps the words *)

Section Words.
Implicit Types (s t p cur : str) (c : char).

Lemma split_ws_from_cons c cur s :
  split_ws_from cur (c :: s)
  = if isspace c then split_ws_from cur [] ++ split_ws s
    else split_ws_from (c :: cur) s.
Proof.
  cbn [split_ws_from]. destruct (isspace c); [| reflexivity].
  destruct (truthy cur); reflexivity.
Qed.

Lemma split_ws_from_app_space a : forall cur c b,
  isspace c = true ->
  split_ws_from cur (a ++ c :: b) = split_ws_from cur a ++ split_ws b.
Proof.
  induction a as [| x a IH]; intros cur c b Hc.
  - cbn [app]. rewrite split_ws_from_cons, Hc. reflexivity.
  - cbn [app]. rewrite !split_ws_from_cons. destruct (isspace x).
    + unfold split_ws. rewrite IH by exact Hc. apply app_assoc.
    + apply IH, Hc.
Qed.

Lemma split_ws_from_spaces (ws : str) :
  Forall (fun c => isspace c = true) ws ->
  forall cur, split_ws_from cur ws = split_ws_from cur [].
Proof.
  induction 1 as [| c ws Hc Hws IH]; intros cur; [reflexivity |].
  rewrite split_ws_from_cons, Hc. unfold split_ws. rewrite IH.
  apply app_nil_r.
Qed.

Lemma split_ws_from_trailing s (ws : str) :
  Forall (fun c => isspace c = true) ws ->
  forall cur, split_ws_from cur (s ++ ws) = split_ws_from cur s.
Proof.
  intros Hws. induction s as [| x s IH]; intros cur.
  - apply split_ws_from_spaces, Hws.
  - cbn [app]. rewrite !split_ws_from_cons. unfold split_ws.
    rewrite !IH. reflexivity.
Qed.

Lemma lstrip_spaces s :
  exists pre, s = pre ++ lstrip s /\ Forall (fun c => isspace c = true) pre.
Proof.
  induction s as [| c s (pre & IH & Hpre)]; [exists []; auto |].
  cbn [lstrip]. destruct (isspace c) eqn:Hc.
  - exists (c :: pre). cbn [app]. split; [congruence | auto].
  - exists []. auto.
Qed.

Lemma split_ws_lstrip s : split_ws (lstrip s) = split_ws s.
Proof.
  destruct (lstrip_spaces s) as (pre & Hs & Hpre).
  rewrite Hs at 2. clear Hs. unfold split_ws.
  induction Hpre as [| c pre Hc Hpre IH]; [reflexivity |].
  cbn [app]. rewrite split_ws_from_cons, Hc. exact IH.
Qed.

Lemma split_ws_rstrip s : split_ws (rstrip s) = split_ws s.
Proof.
  destruct (lstrip_spaces (rev s)) as (pre & Hs & Hpre).
  assert (Hsplit : s = rstrip s ++ rev pre).
  { unfold rstrip. rewrite <- rev_app_distr, <- Hs, rev_involutive.
    reflexivity. }
  rewrite Hsplit at 2. unfold split_ws.
  rewrite split_ws_from_trailing; [reflexivity |]. apply Forall_rev, Hpre.
Qed.

Lemma split_ws_strip s : split_ws (strip s) = split_ws s.
Proof. unfold strip. rewrite split_ws_lstrip. apply split_ws_rstrip. Qed.

Lemma words_of_pieces_nil (pieces : list str) :
  words_of_pieces [] pieces = flat_map split_ws pieces.
Proof. destruct pieces; reflexivity. Qed.

Lemma words_cons_hd c cur (pieces : list str) :
  words_of_pieces cur (cons_hd c pieces)
  = if isspace c then split_ws_from cur [] ++ words_of_pieces [] pieces
    else words_of_pieces (c :: cur) pieces.
Proof.
  destruct pieces as [| p ps]; cbn [cons_hd words_of_pieces flat_map].
  - rewrite split_ws_from_cons, app_nil_r. reflexivity.
  - rewrite split_ws_from_cons. destruct (isspace c); [| reflexivity].
    apply eq_sym, app_assoc.
Qed.

Lemma words_splitlines s : forall cur,
  words_of_pieces cur (splitlines s) = split_ws_from cur s.
Proof.
  induction s as [| c | c c' s IH IH'] using list_ind2; intros cur.
  - reflexivity.
  - cbn [splitlines]. destruct (is_linebreak c) eqn:Hbreak.
    + assert (Hc : isspace c = true).
      { unfold is_linebreak in Hbreak. unfold isspace. lia. }
      rewrite split_ws_from_cons, Hc. cbn [words_of_pieces flat_map].
      reflexivity.
    + rewrite words_cons_hd, split_ws_from_cons.
      destruct (isspace c); reflexivity.
  - change (splitlines (c :: c' :: s))
      with (if is_linebreak c
            then [] :: (if (c =? 13) && (c' =? 10) then splitlines s
                        else splitlines (c' :: s))
            else cons_hd c (splitlines (c' :: s))).
    destruct (is_linebreak c) eqn:Hbreak.
    + assert (Hc : isspace c = true).
      { unfold is_linebreak in Hbreak. unfold isspace. lia. }
      rewrite split_ws_from_cons, Hc. cbn [words_of_pieces]. f_equal.
      destruct ((c =? 13) && (c' =? 10)) eqn:Hcrlf.
      * rewrite <- words_of_pieces_nil, IH. unfold split_ws.
        rewrite split_ws_from_cons.
        assert (isspace c' = true) as ->.
        { apply andb_prop in Hcrlf as [_ Hlf].
          apply Z.eqb_eq in Hlf. subst c'. reflexivity. }
        reflexivity.
      * rewrite <- words_of_pieces_nil, IH'. reflexivity.
    + rewrite words_cons_hd, split_ws_from_cons, !IH'.
      destruct (isspace c); reflexivity.
Qed.

Lemma words_split_2sp s : forall cur,
  words_of_pieces cur (split_2sp s) = split_ws_from cur s.
Proof.
  induction s as [| c | c c' s IH IH'] using list_ind2; intros cur.
  - cbn [split_2sp words_of_pieces flat_map]. apply app_nil_r.
  - cbn [split_2sp words_of_pieces flat_map]. apply app_nil_r.
  - change (split_2sp (c :: c' :: s))
      with (if (c =? 32) && (c' =? 32) then [] :: split_2sp s
            else cons_hd c (split_2sp (c' :: s))).
    destruct ((c =? 32) && (c' =? 32)) eqn:Hsp.
    + apply andb_prop in Hsp as [Hc Hc'].
      apply Z.eqb_eq in Hc, Hc'. subst c c'.
      rewrite split_ws_from_cons. cbn [isspace words_of_pieces].
      change (isspace 32) with true. cbv iota. f_equal.
      rewrite <- words_of_pieces_nil, IH. unfold split_ws.
      rewrite split_ws_from_cons. reflexivity.
    + rewrite words_cons_hd, split_ws_from_cons, !IH'.
      destruct (isspace c); reflexivity.
Qed.

Lemma flat_map_split_ws_strip (pieces : list str) :
  flat_map split_ws (List.map strip pieces) = flat_map split_ws pieces.
Proof.
  induction pieces as [| p ps IH]; [reflexivity |].
  cbn [List.map flat_map]. rewrite split_ws_strip, IH. reflexivity.
Qed.

Lemma flat_map_split_ws_truthy (pieces : list str) :
  flat_map split_ws (List.filter truthy pieces) = flat_map split_ws pieces.
Proof.
  induction pieces as [| p ps IH]; [reflexivity |].
  cbn [List.filter flat_map]. destruct p as [| c p]; cbn [truthy flat_map].
  - exact IH.
  - rewrite IH. reflexivity.
Qed.

Lemma split_ws_join (pieces : list str) :
  split_ws (join (lit " ") pieces) = flat_map split_ws pieces.
Proof.
  change (lit " ") with [32].
  induction pieces as [| p ps IH]; [reflexivity |].
  destruct ps as [| q ps].
  - cbn [join flat_map]. rewrite app_nil_r. reflexivity.
  - change (join [32] (p :: q :: ps)) with (p ++ 32 :: join [32] (q :: ps)).
    unfold split_ws at 1. rewrite split_ws_from_app_space by reflexivity.
    rewrite IH. reflexivity.
Qed.

Lemma flat_map_nested {A B C} (f : A -> list B) (g : B -> list C)
    (l : list A) :
  flat_map g (flat_map f l) = flat_map (fun x => flat_map g (f x)) l.
Proof.
  induction l as [| x l IH]; [reflexivity |].
  cbn [flat_map]. rewrite flat_map_app, IH. reflexivity.
Qed.

Lemma split_ws_from_word cur s : truthy cur = true -> split_ws_from cur s <> [].
Proof.
  revert cur. induction s as [| c s IH]; intros cur Hcur; cbn [split_ws_from].
  - rewrite Hcur. discriminate.
  - destruct (isspace c); [rewrite Hcur; discriminate |].
    apply IH. reflexivity.
Qed.

End Words.

Lemma clean_up_words (text : str) :
  split_ws (clean_up text) = split_ws text.
Proof.
  unfold clean_up. rewrite split_ws_join, flat_map_split_ws_truthy.
  rewrite flat_map_nested.
  rewrite (flat_map_ext _ split_ws).
  2: { intros line.
       rewrite flat_map_split_ws_strip, <- words_of_pieces_nil.
       apply words_split_2sp. }
  rewrite flat_map_split_ws_strip, <- words_of_pieces_nil.
  apply words_splitlines.
Qed.

Lemma clean_up_empty_iff (text : str) :
  clean_up text = [] <-> split_ws text = [].
Proof.
  split.
  - intros Hempty. rewrite <- clean_up_words, Hempty. reflexivity.
  - intros Hnone. rewrite <- clean_up_words in Hnone.
    destruct (clean_up_result text) as [Hempty | (Hhead & _)];
      [exact Hempty |].
    destruct (clean_up text) as [| c s]; [reflexivity |].
    cbn [starts_solid] in Hhead. unfold split_ws in Hnone.
    rewrite split_ws_from_cons in Hnone.
    apply negb_true_iff in Hhead. rewrite Hhead in Hnone.
    destruct (split_ws_from_word [c] s eq_refl Hnone).
Qed.

(** X9. The clean-up changes whitespace only: the cleaned text has the
    same words (maximal runs of non-whitespace characters), in the same
    order, as the text it is given, and it is empty exactly when that text
    has no word. *)
Theorem clean_up_keeps_words (text : str) :
  split_ws (clean_up text) = split_ws text
  /\ (clean_up text = [] <-> split_ws text = []).
Proof.
  split; [apply clean_up_words | apply clean_up_empty_iff].
Qed.

(** ** The tree that is searched *)

Section Decompose.
Import bs4.

Lemma node_nested_ind (P : node -> Prop) :
  (forall s, P (NavigableString s)) ->
  (forall s, P (Comment s)) ->
  (forall name attrs contents,
     Forall P contents -> P (Tag name attrs contents)) ->
  forall n, P n.
Proof.
  intros Hstring Hcomment Htag. fix IH 1.
  intros [s | s | name attrs contents];
    [apply Hstring | apply Hcomment | apply Htag].
  revert contents. fix IHl 1. intros [| c contents].
  - constructor.
  - constructor; [apply IH | apply IHl].
Qed.

Lemma script_or_style_by_name name attrs contents attrs' contents' :
  is_script_or_style (Tag name attrs contents)
  = is_script_or_style (Tag name attrs' contents').
Proof. reflexivity. Qed.

Lemma decompose_clean (n : node) :
  Forall (fun d => is_script_or_style d = false)
    (descendants (decompose is_script_or_style n)).
Proof.
  induction n as [s | s | name attrs contents IH] using node_nested_ind.
  - repeat constructor.
  - repeat constructor.
  - rewrite decompose_unfold.
    destruct (is_script_or_style (Tag name attrs contents)) eqn:Hss;
      [constructor |].
    unfold descendants. cbn [flat_map descendants_of]. rewrite app_nil_r.
    constructor.
    + rewrite <- Hss. apply script_or_style_by_name.
    + rewrite flat_map_nested. apply Forall_flat_map.
      exact IH.
Qed.

Lemma decompose_nothing (n : node) :
  Forall (fun d => is_script_or_style d = false) (n :: descendants_of n) ->
  decompose is_script_or_style n = [n].
Proof.
  induction n as [s | s | name attrs contents IH] using node_nested_ind;
    intros Hclean.
  - reflexivity.
  - reflexivity.
  - rewrite decompose_unfold.
    inversion Hclean as [| ? ? Hself Hbelow]; subst. rewrite Hself.
    do 2 f_equal. cbn [descendants_of] in Hbelow.
    apply Forall_flat_map in Hbelow.
    clear Hclean Hself. induction contents as [| c contents IHc];
      [reflexivity |].
    inversion IH as [| ? ? IHhead IHtail]; subst.
    inversion Hbelow as [| ? ? Hhead Htail]; subst.
    cbn [flat_map]. rewrite (IHhead Hhead), (IHc IHtail Htail). reflexivity.
Qed.

End Decompose.

(** X10. After the removal no script or style element is left anywhere in
    the tree that is searched, and a document that has none is searched as
    it is. *)
Theorem decompose_all_script_style (parsed : bs4.soup) :
  Forall (fun d => is_script_or_style d = false)
    (bs4.descendants (bs4.decompose_all is_script_or_style parsed))
  /\ (Forall (fun d => is_script_or_style d = false)
        (bs4.descendants parsed) ->
      bs4.decompose_all is_script_or_style parsed = parsed).
Proof.
  split.
  - unfold bs4.decompose_all, bs4.descendants. rewrite flat_map_nested.
    apply Forall_flat_map, List.Forall_forall. intros n _.
    apply decompose_clean.
  - unfold bs4.decompose_all, bs4.descendants. intros Hclean.
    apply Forall_flat_map in Hclean.
    induction Hclean as [| n ns Hn Hns IH]; [reflexivity |].
    cbn [flat_map]. rewrite (decompose_nothing n Hn), IH. reflexivity.
Qed.

Lemma decompose_all_script_style_witness :
  bs4.decompose_all is_script_or_style Fixture.page_body = Fixture.page_body.
Proof.
  apply (proj2 (decompose_all_script_style Fixture.page_body)).
  repeat constructor.
Defined.

(** ** What the metadata holds *)

Section Metadata.
Import bs4.
Implicit Types (tag : node) (tags : list node).
Implicit Types (metadata : gmap str meta_value).

(** An entry after the loop was there before it or was written for one of
    the tags. *)
Lemma og_loop_sources tags : forall metadata (key : str) (v : meta_value),
  fold_left og_step tags metadata !! key = Some v ->
  metadata !! key = Some v
  \/ exists tag,
       In tag tags
       /\ key = lit "og_" ++ remove_og (get tag (lit "property") [])
       /\ v = MStr (get tag (lit "content") [])
       /\ remove_og (get tag (lit "property") []) <> []
       /\ get tag (lit "content") [] <> [].
Proof.
  induction tags as [| tag tags IH]; intros metadata key v Hkey;
    [left; exact Hkey |].
  cbn [fold_left] in Hkey. destruct (IH _ _ _ Hkey) as [Hstep | Hlater].
  - rewrite og_step_spec in Hstep.
    destruct (remove_og (get tag (lit "property") [])) as [| c name] eqn:Hname;
      [left; exact Hstep |].
    destruct (get tag (lit "content") []) as [| c' content] eqn:Hcontent;
      [left; exact Hstep |].
    cbn [truthy andb] in Hstep.
    destruct (decide (lit "og_" ++ c :: name = key)) as [<- | Hne].
    + rewrite lookup_insert_eq in Hstep. injection Hstep as <-.
      right. exists tag. rewrite Hname, Hcontent.
      split; [left; reflexivity |]. repeat split; discriminate.
    + rewrite lookup_insert_ne in Hstep by exact Hne. left. exact Hstep.
  - destruct Hlater as (tag' & Hin & Hrest). right. exists tag'.
    split; [right; exact Hin | exact Hrest].
Qed.

(** The loop leaves alone the keys that do not start with "og_". *)
Lemma og_loop_foreign tags : forall metadata (key : str),
  startswith (lit "og_") key = false ->
  fold_left og_step tags metadata !! key = metadata !! key.
Proof.
  induction tags as [| tag tags IH]; intros metadata key Hkey;
    [reflexivity |].
  cbn [fold_left]. rewrite IH by exact Hkey. rewrite og_step_spec.
  destruct (truthy _ && truthy _); [| reflexivity].
  apply lookup_insert_ne. intros <-.
  assert (Hstarts : startswith (lit "og_")
                      (lit "og_" ++ remove_og (get tag (lit "property") []))
                    = true)
    by (apply startswith_iff; eauto).
  congruence.
Qed.

End Metadata.

(** X11. Every entry of the metadata of an extraction has a source in the
    document: "description" and "keywords" hold the content of the first
    meta tag of that name, and any other key is og_<name> for an og: meta
    tag with a non-empty name and a non-empty content, which is the value.
    All values are strings. *)
Theorem metadata_sources (parsed : bs4.soup) (key : str) (v : meta_value) :
  let soup := bs4.decompose_all is_script_or_style parsed in
  (extract_from_soup parsed).2 !! key = Some v ->
  (exists name tag,
     (name = lit "description" \/ name = lit "keywords")
     /\ key = name
     /\ bs4.find (is_meta_named name) soup = Some tag
     /\ v = MStr (bs4.get tag (lit "content") []))
  \/ (exists tag,
        In tag (bs4.find_all is_og_meta soup)
        /\ key = lit "og_" ++ remove_og (bs4.get tag (lit "property") [])
        /\ v = MStr (bs4.get tag (lit "content") [])
        /\ remove_og (bs4.get tag (lit "property") []) <> []
        /\ bs4.get tag (lit "content") [] <> []).
Proof.
  intros soup Hkey. unfold extract_from_soup in Hkey. fold soup in Hkey.
  cbn [snd] in Hkey.
  apply og_loop_sources in Hkey as [Hbefore | Hog]; [left | right; exact Hog].
  destruct (bs4.find (is_meta_named (lit "keywords")) soup)
    as [meta_keywords |] eqn:Hkeywords.
  - destruct (decide (lit "keywords" = key)) as [<- | Hne].
    + rewrite lookup_insert_eq in Hbefore. injection Hbefore as <-.
      exists (lit "keywords"), meta_keywords. auto.
    + rewrite lookup_insert_ne in Hbefore by exact Hne.
      destruct (bs4.find (is_meta_named (lit "description")) soup)
        as [meta_desc |] eqn:Hdesc; [| rewrite lookup_empty in Hbefore;
                                        discriminate Hbefore].
      destruct (decide (lit "description" = key)) as [<- | Hne'].
      * rewrite lookup_insert_eq in Hbefore. injection Hbefore as <-.
        exists (lit "description"), meta_desc. auto.
      * rewrite lookup_insert_ne, lookup_empty in Hbefore by exact Hne'.
        discriminate Hbefore.
  - destruct (bs4.find (is_meta_named (lit "description")) soup)
      as [meta_desc |] eqn:Hdesc; [| rewrite lookup_empty in Hbefore;
                                      discriminate Hbefore].
    destruct (decide (lit "description" = key)) as [<- | Hne'].
    + rewrite lookup_insert_eq in Hbefore. injection Hbefore as <-.
      exists (lit "description"), meta_desc. auto.
    + rewrite lookup_insert_ne, lookup_empty in Hbefore by exact Hne'.
      discriminate Hbefore.
Qed.

Lemma metadata_sources_witness :
  (exists name tag,
     (name = lit "description" \/ name = lit "keywords")
     /\ lit "og_title" = name
     /\ bs4.find (is_meta_named name)
          (bs4.decompose_all is_script_or_style Fixture.page_og) = Some tag
     /\ MStr (lit "Hello") = MStr (bs4.get tag (lit "content") []))
  \/ (exists tag,
        In tag (bs4.find_all is_og_meta
                  (bs4.decompose_all is_script_or_style Fixture.page_og))
        /\ lit "og_title"
           = lit "og_" ++ remove_og (bs4.get tag (lit "property") [])
        /\ MStr (lit "Hello") = MStr (bs4.get tag (lit "content") [])
        /\ remove_og (bs4.get tag (lit "property") []) <> []
        /\ bs4.get tag (lit "content") [] <> []).
Proof.
  apply (metadata_sources Fixture.page_og (lit "og_title")
           (MStr (lit "Hello"))).
  reflexivity.
Defined.

(** X12. The description and the keywords are those of the first meta tag
    of that name, even when its content is empty or missing (the entry is
    then the empty string), and there is no entry when there is no such
    tag; the og: tags do not change them. *)
Theorem description_and_keywords (parsed : bs4.soup) :
  let soup := bs4.decompose_all is_script_or_style parsed in
  let entry name :=
    (fun tag => MStr (bs4.get tag (lit "content") []))
      <$> bs4.find (is_meta_named name) soup in
  (extract_from_soup parsed).2 !! lit "description"
  = entry (lit "description")
  /\ (extract_from_soup parsed).2 !! lit "keywords" = entry (lit "keywords").
Proof.
  intros soup entry. subst entry. unfold extract_from_soup. fold soup.
  cbn [snd]. rewrite !og_loop_foreign by reflexivity.
  destruct (bs4.find (is_meta_named (lit "description")) soup)
    as [meta_desc |];
    destruct (bs4.find (is_meta_named (lit "keywords")) soup)
      as [meta_keywords |]; cbn [fmap option_fmap option_map].
  - split; [| apply lookup_insert_eq].
    rewrite lookup_insert_ne by discriminate. apply lookup_insert_eq.
  - split; [apply lookup_insert_eq |].
    rewrite lookup_insert_ne by discriminate. apply lookup_empty.
  - split; [| apply lookup_insert_eq].
    rewrite lookup_insert_ne by discriminate. apply lookup_empty.
  - split; apply lookup_empty.
Qed.

(** X13. The title is that of the first title element left after the
    removal of scripts and styles, with no whitespace at either end; it is
    None exactly when there is no such element. *)
Theorem title_of_document (parsed : bs4.soup) :
  let soup := bs4.decompose_all is_script_or_style parsed in
  let nodes := bs4.descendants soup in
  let title := (extract_from_soup parsed).1.2 in
  (title = None <-> no_match (bs4.named (lit "title")) nodes)
  /\ (forall tag, first_match (bs4.named (lit "title")) nodes tag ->
        title = Some (strip (bs4.get_text tag)))
  /\ (forall t, title = Some t ->
        strip t = t
        /\ (t = [] \/ starts_solid t = true /\ starts_solid (rev t) = true)).
Proof.
  intros soup nodes title. subst title nodes. unfold extract_from_soup.
  fold soup. cbn [fst snd].
  split; [| split].
  - split.
    + intros Htitle. apply find_none_inv.
      destruct (bs4.find (bs4.named (lit "title")) soup);
        [discriminate Htitle | reflexivity].
    + intros Hnone. rewrite (find_none _ _ Hnone). reflexivity.
  - intros tag Hfirst. rewrite (find_first _ _ _ Hfirst). reflexivity.
  - intros t Htitle.
    destruct (bs4.find (bs4.named (lit "title")) soup) as [title_tag |];
      [| discriminate Htitle].
    injection Htitle as <-.
    destruct (strip (bs4.get_text title_tag)) as [| c s] eqn:Hstrip.
    + split; [reflexivity | left; reflexivity].
    + rewrite <- Hstrip.
      destruct (strip_solid (bs4.get_text title_tag)) as [Hhead Hlast];
        [rewrite Hstrip; discriminate |].
      split; [apply strip_id; assumption | right; split; assumption].
Qed.

Lemma title_of_document_witness :
  (extract_from_soup Fixture.page_main).1.2 = Some (lit "T").
Proof.
  apply (proj1 (proj2 (title_of_document Fixture.page_main))
           (Fixture.el "title" [] [Fixture.txt "T"])).
  apply find_some_inv. reflexivity.
Defined.

(** ** The decoded text *)

Section Decoding.

Lemma byte_val_range (b : byte) : 0 <= byte_val b < 256.
Proof. destruct b; vm_compute; split; congruence. Qed.

Lemma utf8_decode_ascii (content : bytes) :
  Forall (fun b => byte_val b < 128) content ->
  utf8_decode content = Some (List.map byte_val content).
Proof.
  induction 1 as [| b content Hb Hcontent IH]; [reflexivity |].
  cbn [utf8_decode List.map]. apply Z.ltb_lt in Hb. rewrite Hb, IH.
  reflexivity.
Qed.

(** A Unicode scalar value: at most U+10FFFF and not a surrogate. *)
Lemma utf8_decode_scalar (n : nat) : forall (content : bytes) (text : str),
  (length content <= n)%nat ->
  utf8_decode content = Some text ->
  Forall (fun c => 0 <= c <= 1114111 /\ ~ (55296 <= c <= 57343)) text
  /\ (length text <= length content)%nat.
Proof.
  induction n as [| n IH]; intros content text Hlen Hdecode.
  - destruct content; [| cbn in Hlen; lia].
    injection Hdecode as <-. split; [constructor | reflexivity].
  - destruct content as [| b0 r0];
      [injection Hdecode as <-; split; [constructor | reflexivity] |].
    cbn [utf8_decode] in Hdecode. cbn [length] in Hlen |- *.
    pose proof (byte_val_range b0) as H0.
    destruct (byte_val b0 <? 128) eqn:Hascii.
    { destruct (utf8_decode r0) as [t |] eqn:Hrest; [| discriminate].
      injection Hdecode as <-. destruct (IH r0 t) as [Hall Hsize]; [lia | auto |].
      apply Z.ltb_lt in Hascii. cbn [length].
      split; [constructor; [lia | exact Hall] | lia]. }
    destruct (between 194 223 (byte_val b0)) eqn:Htwo.
    { destruct r0 as [| b1 r1]; [discriminate |].
      pose proof (byte_val_range b1) as H1.
      destruct (between 128 191 (byte_val b1)) eqn:Hc1; [| discriminate].
      destruct (utf8_decode r1) as [t |] eqn:Hrest; [| discriminate].
      injection Hdecode as <-. cbn [length] in Hlen |- *.
      destruct (IH r1 t) as [Hall Hsize]; [lia | auto |].
      unfold between in *. split; [constructor; [lia | exact Hall] | lia]. }
    destruct (between 224 239 (byte_val b0)) eqn:Hthree.
    { destruct r0 as [| b1 [| b2 r2]]; [discriminate | discriminate |].
      pose proof (byte_val_range b1) as H1.
      pose proof (byte_val_range b2) as H2.
      destruct (between (second_lo (byte_val b0)) (second_hi (byte_val b0))
                  (byte_val b1) && between 128 191 (byte_val b2)) eqn:Hc;
        [| discriminate].
      destruct (utf8_decode r2) as [t |] eqn:Hrest; [| discriminate].
      injection Hdecode as <-. cbn [length] in Hlen |- *.
      destruct (IH r2 t) as [Hall Hsize]; [lia | auto |].
      split; [constructor; [| exact Hall] | lia].
      unfold between, second_lo, second_hi in *.
      destruct (Z.eqb_spec (byte_val b0) 224), (Z.eqb_spec (byte_val b0) 240),
        (Z.eqb_spec (byte_val b0) 237), (Z.eqb_spec (byte_val b0) 244); lia. }
    destruct (between 240 244 (byte_val b0)) eqn:Hfour; [| discriminate].
    destruct r0 as [| b1 [| b2 [| b3 r3]]];
      [discriminate | discriminate | discriminate |].
    pose proof (byte_val_range b1) as H1.
    pose proof (byte_val_range b2) as H2.
    pose proof (byte_val_range b3) as H3.
    destruct (between (second_lo (byte_val b0)) (second_hi (byte_val b0))
                (byte_val b1) && between 128 191 (byte_val b2)
              && between 128 191 (byte_val b3)) eqn:Hc; [| discriminate].
    destruct (utf8_decode r3) as [t |] eqn:Hrest; [| discriminate].
    injection Hdecode as <-. cbn [length] in Hlen |- *.
    destruct (IH r3 t) as [Hall Hsize]; [lia | auto |].
    split; [constructor; [| exact Hall] | lia].
    unfold between, second_lo, second_hi in *.
    destruct (Z.eqb_spec (byte_val b0) 224), (Z.eqb_spec (byte_val b0) 240),
      (Z.eqb_spec (byte_val b0) 237), (Z.eqb_spec (byte_val b0) 244); lia.
Qed.

End Decoding.

(** X14. The text a body is decoded to is made of Unicode scalar values
    (at most U+10FFFF, no surrogate) and has at most one character per
    byte; an ASCII body is decoded to the same characters, whichever of
    the two codecs is asked. *)
Theorem decode_content_text (content : bytes) (text : str) :
  decode_content content = Ok text ->
  Forall (fun c => 0 <= c <= 1114111 /\ ~ (55296 <= c <= 57343)) text
  /\ (length text <= length content)%nat
  /\ (Forall (fun b => byte_val b < 128) content ->
      text = List.map byte_val content
      /\ utf8_decode content = latin1_decode content).
Proof.
  rewrite decode_content_cases. intros [= <-].
  destruct (utf8_decode content) as [t |] eqn:Hutf8; cbn [default].
  - destruct (utf8_decode_scalar (length content) content t (le_n _) Hutf8)
      as [Hall Hsize].
    split; [exact Hall |]. split; [exact Hsize |].
    intros Hascii. rewrite (utf8_decode_ascii _ Hascii) in Hutf8.
    injection Hutf8 as <-. rewrite latin1_decode_total. auto.
  - split; [| split].
    + apply List.Forall_forall. intros c Hin.
      apply in_map_iff in Hin as (b & <- & _).
      pose proof (byte_val_range b). lia.
    + rewrite length_map. reflexivity.
    + intros Hascii. rewrite (utf8_decode_ascii _ Hascii) in Hutf8.
      discriminate Hutf8.
Qed.

Lemma decode_content_text_witness :
  Forall (fun c => 0 <= c <= 1114111 /\ ~ (55296 <= c <= 57343))
    [104; 233; 8364]
  /\ Nat.le (length [104; 233; 8364])
       (length [x68; xc3; xa9; xe2; x82; xac])
  /\ (Forall (fun b => byte_val b < 128) [x68; xc3; xa9; xe2; x82; xac] ->
      [104; 233; 8364] = List.map byte_val [x68; xc3; xa9; xe2; x82; xac]
      /\ utf8_decode [x68; xc3; xa9; xe2; x82; xac]
         = latin1_decode [x68; xc3; xa9; xe2; x82; xac]).
Proof.
  apply (decode_content_text [x68; xc3; xa9; xe2; x82; xac] [104; 233; 8364]).
  reflexivity.
Defined.

(** ** The HTML branch of /fetch *)


